(** * PO confirmation: row-level security, the user-profile trigger, the
      migrations and the DualPOFlow component

    The development follows the three SQL migrations (phase 18, 20, 21) and
    [src/components/DualPOFlow.tsx].  SQL expressions are translated into
    Rocq functions over three-valued booleans; statements that can fail
    return a result that is either a value or the raised error. *)

From stdpp Require Import gmap strings list fin_maps.

Local Open Scope string_scope.
Local Open Scope list_scope.

(** ** SQL values and three-valued logic *)

Definition uuid := string.

(** Errors a statement can raise. *)
Inductive sql_error :=
  | cardinality_violation   (* more than one row returned by a subquery used as an expression *)
  | rls_violation           (* new row violates row-level security policy *)
  | undefined_table (name : string)    (* missing FROM-clause entry for table <name> *)
  | undefined_column (name : string)   (* column <name> does not exist *)
  | undefined_function (name : string) (* function <name>() does not exist *)
  | duplicate_object (name : string)   (* policy / trigger <name> already exists *)
  | raise_exception (msg : string).    (* RAISE EXCEPTION in plpgsql *)

Inductive res (A : Type) :=
  | Return (a : A)
  | Raise (e : sql_error).
Arguments Return {A} a.
Arguments Raise {A} e.

#[export] Instance res_ret : MRet res := λ A a, Return a.

#[export] Instance res_bind : MBind res := λ A B k m,
  match m with
  | Return a => k a
  | Raise e => Raise e
  end.

(** A SQL boolean: [Some true], [Some false] or NULL. *)
Definition tri := option bool.

(** [a = b] in SQL: NULL as soon as one side is NULL. *)
Definition sql_eq {A} `{EqDecision A} (a b : option A) : tri :=
  match a, b with
  | Some x, Some y => Some (bool_decide (x = y))
  | _, _ => None
  end.

(** [a IS DISTINCT FROM b]: the null-safe inequality, never NULL. *)
Definition is_distinct_from {A} `{EqDecision A} (a b : option A) : bool :=
  bool_decide (a ≠ b).

Definition tri_and (a b : tri) : tri :=
  match a, b with
  | Some false, _ | _, Some false => Some false
  | Some true, Some true => Some true
  | _, _ => None
  end.

(** [a AND b] as the executor runs it: the arguments are evaluated from left
    to right and a FALSE argument ends the evaluation, so that the right
    argument is not run (and cannot raise) when the left one is FALSE. *)
Definition sql_and (a b : res tri) : res tri :=
  match a with
  | Raise e => Raise e
  | Return (Some false) => Return (Some false)
  | Return x => y ← b; Return (tri_and x y)
  end.

(** A policy expression or an IF condition passes only when it is TRUE. *)
Definition is_true (t : tri) : bool :=
  match t with
  | Some true => true
  | _ => false
  end.

(** A subquery used as an expression: NULL for no row, the value for one
    row, an error for more. *)
Definition scalar_subquery {A} (rows : list A) : res (option A) :=
  match rows with
  | [] => Return None
  | [x] => Return (Some x)
  | _ :: _ :: _ => Raise cardinality_violation
  end.

(** ** Sessions *)

(** What the identity provider exposes to an expression: [current_user],
    [auth.uid()] (NULL without an end-user session) and the result of
    [get_user_role()], a helper of the application that these migrations
    call but do not define. *)
Record Session := {
  current_user : string;
  auth_uid : option uuid;
  get_user_role : option string;
}.

(** ** public.orders *)

Module Orders.

(** The columns the migrations and the component touch.  [id], [client_id]
    and [status] are NOT NULL; the four columns added by phase 20 are
    nullable ([DEFAULT NULL], [DEFAULT FALSE] without NOT NULL). *)
Record row := {
  id : uuid;
  client_id : uuid;
  supplier_id : uuid;
  status : string;
  amount : Z;
  not_test_order_confirmed_at : option string;
  payment_terms_confirmed_at : option string;
  client_po_confirmation_submitted_at : option string;
  client_po_uploaded : option bool;
  payment_reference : option string;
  payment_notes : option string;
  payment_submitted_at : option string;
}.

#[export] Instance orders_row_eq_dec : EqDecision row.
Proof. solve_decision. Defined.

(** A TIMESTAMPTZ value reaches the client as an ISO 8601 string, which is
    never the empty string. *)
Definition timestamps_well_formed (o : row) : Prop :=
  not_test_order_confirmed_at o ≠ Some ""
  ∧ payment_terms_confirmed_at o ≠ Some ""
  ∧ client_po_confirmation_submitted_at o ≠ Some "".

(** *** Policy "Clients can create own orders" (phase 20, FOR INSERT)

    WITH CHECK (auth.uid() = client_id AND get_user_role() = 'CLIENT') *)
Definition insert_with_check (s : Session) (new : row) : res tri :=
  sql_and (Return (sql_eq (auth_uid s) (Some (client_id new))))
          (Return (sql_eq (get_user_role s) (Some "CLIENT"))).

(** *** Policy "Clients can update own PO fields" (phase 21, FOR UPDATE)

    USING (auth.uid() = client_id), evaluated on the existing row. *)
Definition update_using (s : Session) (old : row) : res tri :=
  Return (sql_eq (auth_uid s) (Some (client_id old))).

(** [(SELECT status FROM public.orders WHERE id = orders.id)].

    The FROM clause of the subquery brings a range-table entry named
    [orders] into the innermost scope, and SQL resolves a column reference
    in the innermost scope that has it.  Both [id] and [orders.id] are
    therefore columns of the row the subquery scans, not of the row under
    check: the WHERE clause compares each scanned row with itself.
    [tbl] is public.orders as the statement that evaluates the policy reads
    it (the rows its snapshot and the SELECT policies show to the caller). *)
Definition current_status_subquery (tbl : list row) : res (option string) :=
  scalar_subquery (status <$> filter (λ orders, id orders = id orders) tbl).

(** WITH CHECK (auth.uid() = client_id
                AND status = (SELECT status FROM public.orders
                               WHERE id = orders.id)),
    evaluated on the proposed row. *)
Definition update_with_check (s : Session) (tbl : list row) (new : row) : res tri :=
  sql_and (Return (sql_eq (auth_uid s) (Some (client_id new))))
          (current ← current_status_subquery tbl;
           Return (sql_eq (Some (status new)) current)).

(** What row-level security does with one row of a statement. *)
Inductive decision :=
  | Allowed
  | Filtered                   (* USING is not TRUE: the row is not a target *)
  | Rejected (e : sql_error).  (* the statement is aborted *)

Definition check_insert (s : Session) (new : row) : decision :=
  match insert_with_check s new with
  | Return t => if is_true t then Allowed else Rejected rls_violation
  | Raise e => Rejected e
  end.

Definition check_update (s : Session) (tbl : list row) (old new : row) : decision :=
  match update_using s old with
  | Raise e => Rejected e
  | Return u =>
      if is_true u then
        match update_with_check s tbl new with
        | Return t => if is_true t then Allowed else Rejected rls_violation
        | Raise e => Rejected e
        end
      else Filtered
  end.

(** [INSERT INTO public.orders VALUES (new)] by a session under RLS. *)
Definition insert_order (s : Session) (tbl : list row) (new : row) : res (list row) :=
  match check_insert s new with
  | Allowed => Return (tbl ++ [new])
  | Filtered => Return tbl
  | Rejected e => Raise e
  end.

(** [UPDATE public.orders SET ... WHERE id = target] by a session under
    RLS; [set] is the SET list.  Every check reads [tbl], the table as it
    was when the statement started. *)
Fixpoint update_rows (s : Session) (tbl : list row) (target : uuid)
    (set : row → row) (rows : list row) : res (list row) :=
  match rows with
  | [] => Return []
  | old :: rows' =>
      if bool_decide (id old = target) then
        match check_update s tbl old (set old) with
        | Allowed => rest ← update_rows s tbl target set rows'; Return (set old :: rest)
        | Filtered => rest ← update_rows s tbl target set rows'; Return (old :: rest)
        | Rejected e => Raise e
        end
      else rest ← update_rows s tbl target set rows'; Return (old :: rest)
  end.

Definition update_order (s : Session) (tbl : list row) (target : uuid)
    (set : row → row) : res (list row) :=
  update_rows s tbl target set tbl.


End Orders.

(** ** public.users and the BEFORE UPDATE guard (phase 18) *)

Module Users.

(** Amounts are kept in minor units.  Every column but [id] is nullable, so
    that IS DISTINCT FROM is the null-safe comparison it is in SQL. *)
Record row := {
  id : uuid;
  role : option string;
  verified : option bool;
  status : option string;
  kyc_status : option string;
  public_id : option string;
  date_joined : option string;
  credit_limit : option Z;
  credit_used : option Z;
  current_balance : option Z;
  rating : option Z;
}.

#[export] Instance users_row_eq_dec : EqDecision row.
Proof. solve_decision. Defined.

(** [SELECT role::TEXT INTO v_caller_role FROM public.users WHERE id = uid]:
    the first row found, NULL when there is none. *)
Definition select_role_into (users : list row) (uid : uuid) : option string :=
  match filter (λ u, id u = uid) users with
  | [] => None
  | u :: _ => role u
  end.

(** The condition of the last IF of the function. *)
Definition sensitive_column_changed (OLD NEW : row) : bool :=
  is_distinct_from (role OLD) (role NEW)
  || is_distinct_from (verified OLD) (verified NEW)
  || is_distinct_from (status OLD) (status NEW)
  || is_distinct_from (kyc_status OLD) (kyc_status NEW)
  || is_distinct_from (public_id OLD) (public_id NEW)
  || is_distinct_from (date_joined OLD) (date_joined NEW)
  || is_distinct_from (credit_limit OLD) (credit_limit NEW).

(** RAISE EXCEPTION 'Only safe profile fields can be updated by users' *)
Definition rejection : sql_error :=
  raise_exception "Only safe profile fields can be updated by users".

(** The body of [public.enforce_safe_user_profile_update()].
    [current_user] is the value the expression [current_user] has inside
    the body, [uid] the value of [auth.uid()], [users] the table as the
    function reads it. *)
Definition enforce_safe_user_profile_update (current_user : string)
    (uid : option uuid) (users : list row) (OLD NEW : row) : res row :=
  if negb (bool_decide (current_user ∈ ["authenticated"; "anon"])) then Return NEW
  else
    match uid with
    | None => Return NEW
    | Some caller =>
        let v_caller_role := select_role_into users caller in
        if is_true (sql_eq v_caller_role (Some "ADMIN")) then Return NEW
        else if sensitive_column_changed OLD NEW then Raise rejection
        else Return NEW
    end.

(** The attributes of a function that matter when it runs (pg_proc). *)
Record pg_proc := {
  proowner : string;
  prosecdef : bool;   (* SECURITY DEFINER *)
}.

(** The user a function body runs as: its owner when the function is
    SECURITY DEFINER, the calling session's user otherwise.  This is the
    rule the comment in the function states ("When a SECURITY DEFINER
    function runs, current_user is the function owner"). *)
Definition executing_user (fn : pg_proc) (s : Session) : string :=
  if prosecdef fn then proowner fn else current_user s.

(** What phase 18 creates: SECURITY DEFINER, owned by the role that runs
    the migration. *)
Definition guard_function (runner : string) : pg_proc :=
  {| proowner := runner; prosecdef := true |}.

(** [trg_enforce_safe_user_profile_update] firing for one row: the function
    is called through [fn], in session [s]. *)
Definition fire_guard (fn : pg_proc) (s : Session) (users : list row)
    (OLD NEW : row) : res row :=
  enforce_safe_user_profile_update (executing_user fn s) (auth_uid s) users OLD NEW.

(** [UPDATE public.users SET ... WHERE id = target] with the trigger
    installed: BEFORE UPDATE, FOR EACH ROW.  An exception aborts the
    statement and no row is written. *)
Fixpoint update_rows (fn : pg_proc) (s : Session) (users : list row)
    (target : uuid) (set : row → row) (rows : list row) : res (list row) :=
  match rows with
  | [] => Return []
  | OLD :: rows' =>
      if bool_decide (id OLD = target) then
        NEW ← fire_guard fn s users OLD (set OLD);
        rest ← update_rows fn s users target set rows';
        Return (NEW :: rest)
      else
        rest ← update_rows fn s users target set rows';
        Return (OLD :: rest)
  end.

Definition update_user (fn : pg_proc) (s : Session) (users : list row)
    (target : uuid) (set : row → row) : res (list row) :=
  update_rows fn s users target set users.

(** The table after a statement: the old one when the statement raised. *)
Definition table_after (users : list row) (r : res (list row)) : list row :=
  match r with
  | Return users' => users'
  | Raise _ => users
  end.

End Users.

(** ** Policy expressions as CREATE POLICY receives them *)

Module SqlExpr.

(** The expressions the three policies are written in.  Unquoted
    identifiers are folded to lower case, as the parser does. *)
Inductive scalar :=
  | auth_uid_call                                 (* auth.uid() *)
  | get_user_role_call                            (* get_user_role() *)
  | lit (s : string)                              (* 'text' *)
  | col (qualifier : option string) (name : string)
  | select_from_where (sel from : string) (where_ : cond)
with cond :=
  | eq (a b : scalar)
  | and (a b : cond).

(** [range] is the list of range-table entries in scope, innermost first,
    each with the names of its columns. *)
Definition range := list (string * list string).

(** Name resolution of a column reference: a qualified reference takes the
    innermost entry of that name, an unqualified one the innermost entry
    that has the column. *)
Fixpoint resolve_col (qualifier : option string) (name : string) (r : range) : res nat :=
  match r with
  | [] =>
      match qualifier with
      | Some q => Raise (undefined_table q)
      | None => Raise (undefined_column name)
      end
  | (alias, columns) :: r' =>
      let here :=
        match qualifier with
        | Some q => bool_decide (q = alias)
        | None => bool_decide (name ∈ columns)
        end in
      if here then
        if bool_decide (name ∈ columns) then Return 0%nat
        else Raise (undefined_column name)
      else level ← resolve_col qualifier name r'; Return (S level)
  end.

(** The analysis CREATE POLICY runs on an expression: every column
    reference must resolve.  [tables] gives the columns of a table. *)
Fixpoint analyse_scalar (tables : string → option (list string)) (r : range)
    (e : scalar) : res () :=
  match e with
  | auth_uid_call | get_user_role_call | lit _ => Return ()
  | col q name => _ ← resolve_col q name r; Return ()
  | select_from_where sel from where_ =>
      match tables from with
      | None => Raise (undefined_table from)
      | Some columns =>
          let r' := (from, columns) :: r in
          _ ← analyse_cond tables r' where_;
          _ ← resolve_col None sel r';
          Return ()
      end
  end
with analyse_cond (tables : string → option (list string)) (r : range)
    (c : cond) : res () :=
  match c with
  | eq a b => _ ← analyse_scalar tables r a; analyse_scalar tables r b
  | and a b => _ ← analyse_cond tables r a; analyse_cond tables r b
  end.

(** The value of a text-like column of public.orders, by name. *)
Definition orders_column (name : string) (o : Orders.row) : option (option string) :=
  if bool_decide (name = "id") then Some (Some (Orders.id o))
  else if bool_decide (name = "client_id") then Some (Some (Orders.client_id o))
  else if bool_decide (name = "supplier_id") then Some (Some (Orders.supplier_id o))
  else if bool_decide (name = "status") then Some (Some (Orders.status o))
  else None.

(** Rows in scope at run time, innermost first. *)
Definition env := list (string * Orders.row).

Fixpoint eval_col (qualifier : option string) (name : string) (ρ : env)
    : res (option string) :=
  match ρ with
  | [] =>
      match qualifier with
      | Some q => Raise (undefined_table q)
      | None => Raise (undefined_column name)
      end
  | (alias, o) :: ρ' =>
      let here :=
        match qualifier with
        | Some q => bool_decide (q = alias)
        | None => bool_decide (is_Some (orders_column name o))
        end in
      if here then
        match orders_column name o with
        | Some v => Return v
        | None => Raise (undefined_column name)
        end
      else eval_col qualifier name ρ'
  end.

(** The rows of [rows] on which [p] is TRUE. *)
Fixpoint where_rows (p : Orders.row → res tri) (rows : list Orders.row)
    : res (list Orders.row) :=
  match rows with
  | [] => Return []
  | o :: rows' =>
      t ← p o;
      rest ← where_rows p rows';
      Return (if is_true t then o :: rest else rest)
  end.

(** The select list of a subquery, row by row. *)
Fixpoint select_rows (sel from : string) (ρ : env) (rows : list Orders.row)
    : res (list (option string)) :=
  match rows with
  | [] => Return []
  | o :: rows' =>
      v ← eval_col None sel ((from, o) :: ρ);
      vs ← select_rows sel from ρ rows';
      Return (v :: vs)
  end.

(** Evaluation in session [s]; [orders] is public.orders as the statement
    reads it (the only table the policies select from). *)
Fixpoint eval_scalar (s : Session) (orders : list Orders.row) (ρ : env)
    (e : scalar) : res (option string) :=
  match e with
  | auth_uid_call => Return (auth_uid s)
  | get_user_role_call => Return (get_user_role s)
  | lit v => Return (Some v)
  | col q name => eval_col q name ρ
  | select_from_where sel from where_ =>
      found ← where_rows (λ o, eval_cond s orders ((from, o) :: ρ) where_) orders;
      values ← select_rows sel from ρ found;
      v ← scalar_subquery values;
      Return (default None v)
  end
with eval_cond (s : Session) (orders : list Orders.row) (ρ : env)
    (c : cond) : res tri :=
  match c with
  | eq a b =>
      x ← eval_scalar s orders ρ a;
      y ← eval_scalar s orders ρ b;
      Return (sql_eq x y)
  | and a b => sql_and (eval_cond s orders ρ a) (eval_cond s orders ρ b)
  end.

(** The three policy expressions, as written in the migrations. *)

(** phase 20: auth.uid() = client_id AND status = OLD.status *)
Definition phase20_update_with_check : cond :=
  and (eq auth_uid_call (col None "client_id"))
      (eq (col None "status") (col (Some "old") "status")).

(** phase 20: auth.uid() = client_id AND get_user_role() = 'CLIENT' *)
Definition phase20_insert_with_check : cond :=
  and (eq auth_uid_call (col None "client_id"))
      (eq get_user_role_call (lit "CLIENT")).

(** phase 20 and 21: auth.uid() = client_id *)
Definition update_using_owner : cond :=
  eq auth_uid_call (col None "client_id").

(** phase 21: auth.uid() = client_id
              AND status = (SELECT status FROM public.orders WHERE id = orders.id) *)
Definition phase21_update_with_check : cond :=
  and (eq auth_uid_call (col None "client_id"))
      (eq (col None "status")
          (select_from_where "status" "orders"
             (eq (col None "id") (col (Some "orders") "id")))).

End SqlExpr.

(** ** The system catalog and the three migrations *)

Module Catalog.

Inductive policy_command := for_insert | for_update.

Record pg_policy := {
  polcmd : policy_command;
  polqual : option SqlExpr.cond;        (* USING *)
  polwithcheck : option SqlExpr.cond;   (* WITH CHECK *)
}.

(** pg_trigger.tgtype is a bit mask. *)
Definition TRIGGER_TYPE_ROW : Z := 1.
Definition TRIGGER_TYPE_BEFORE : Z := 2.
Definition TRIGGER_TYPE_INSERT : Z := 4.
Definition TRIGGER_TYPE_DELETE : Z := 8.
Definition TRIGGER_TYPE_UPDATE : Z := 16.

Record pg_trigger := {
  tgtype : Z;
  tgisinternal : bool;
  tgfoid : string;   (* the function the trigger executes *)
}.

Record column_def := {
  coltype : string;
  coldefault : string;
}.

(** The part of the database the migrations read and write: the columns and
    policies of public.orders, the triggers of public.users, the functions
    of schema public, and the rows of public._migration_log. *)
Record catalog := {
  orders_columns : gmap string column_def;
  orders_policies : gmap string pg_policy;
  users_triggers : gmap string pg_trigger;
  functions : gmap string Users.pg_proc;
  migration_log : list string;
}.

Definition with_orders_columns (v : gmap string column_def) (c : catalog) : catalog :=
  {| orders_columns := v;
     orders_policies := orders_policies c;
     users_triggers := users_triggers c;
     functions := functions c;
     migration_log := migration_log c |}.

Definition with_orders_policies (v : gmap string pg_policy) (c : catalog) : catalog :=
  {| orders_columns := orders_columns c;
     orders_policies := v;
     users_triggers := users_triggers c;
     functions := functions c;
     migration_log := migration_log c |}.

Definition with_users_triggers (v : gmap string pg_trigger) (c : catalog) : catalog :=
  {| orders_columns := orders_columns c;
     orders_policies := orders_policies c;
     users_triggers := v;
     functions := functions c;
     migration_log := migration_log c |}.

Definition with_functions (v : gmap string Users.pg_proc) (c : catalog) : catalog :=
  {| orders_columns := orders_columns c;
     orders_policies := orders_policies c;
     users_triggers := users_triggers c;
     functions := v;
     migration_log := migration_log c |}.

Definition with_migration_log (v : list string) (c : catalog) : catalog :=
  {| orders_columns := orders_columns c;
     orders_policies := orders_policies c;
     users_triggers := users_triggers c;
     functions := functions c;
     migration_log := v |}.

Definition statement := catalog → res catalog.

(** Statements run in order; the first error ends the migration. *)
Fixpoint run (script : list statement) (c : catalog) : res catalog :=
  match script with
  | [] => Return c
  | stmt :: script' => c' ← stmt c; run script' c'
  end.

(** ALTER TABLE public.orders ADD COLUMN IF NOT EXISTS name type DEFAULT d *)
Definition add_column_if_not_exists (name type default : string) : statement := λ c,
  Return
    match orders_columns c !! name with
    | Some _ => c
    | None =>
        with_orders_columns
          (<[name := {| coltype := type; coldefault := default |}]> (orders_columns c)) c
    end.

(** DROP POLICY IF EXISTS name ON public.orders *)
Definition drop_policy_if_exists (name : string) : statement := λ c,
  Return (with_orders_policies (delete name (orders_policies c)) c).

Definition table_columns (c : catalog) (table : string) : option (list string) :=
  if bool_decide (table = "orders") then Some (elements (dom (orders_columns c)))
  else None.

Definition analyse_policy_expr (c : catalog) (e : option SqlExpr.cond) : res () :=
  match e with
  | None => Return ()
  | Some e =>
      SqlExpr.analyse_cond (table_columns c)
        [("orders", elements (dom (orders_columns c)))] e
  end.

(** CREATE POLICY name ON public.orders FOR cmd USING (..) WITH CHECK (..):
    both expressions are analysed with the table as the only range-table
    entry, then the name must be free. *)
Definition create_policy (name : string) (p : pg_policy) : statement := λ c,
  _ ← analyse_policy_expr c (polqual p);
  _ ← analyse_policy_expr c (polwithcheck p);
  match orders_policies c !! name with
  | Some _ => Raise (duplicate_object name)
  | None => Return (with_orders_policies (<[name := p]> (orders_policies c)) c)
  end.

(** INSERT INTO public._migration_log (migration_name) VALUES (name)
    ON CONFLICT (migration_name) DO NOTHING *)
Definition log_migration (name : string) : statement := λ c,
  Return
    (with_migration_log
       (if bool_decide (name ∈ migration_log c) then migration_log c
        else migration_log c ++ [name]) c).

(** The rows the FOR loop of the DO block selects from pg_trigger:
    NOT t.tgisinternal AND t.tgtype & 16 = 16
    AND tgname NOT IN ('update_users_updated_at'). *)
Definition selected_by_do_block (tgname : string) (t : pg_trigger) : Prop :=
  tgisinternal t = false
  ∧ (Z.land (tgtype t) 16 = 16)%Z
  ∧ tgname ≠ "update_users_updated_at".

#[export] Instance selected_by_do_block_dec tgname t :
  Decision (selected_by_do_block tgname t).
Proof. unfold selected_by_do_block. apply _. Defined.

(** The DO block: DROP TRIGGER IF EXISTS for every selected trigger. *)
Definition drop_selected_triggers : statement := λ c,
  Return
    (with_users_triggers
       (filter (λ kv, ¬ selected_by_do_block kv.1 kv.2) (users_triggers c)) c).

(** DROP FUNCTION IF EXISTS name() CASCADE: the triggers that execute the
    function go with it. *)
Definition drop_function_if_exists_cascade (name : string) : statement := λ c,
  Return
    (with_functions (delete name (functions c))
       (with_users_triggers
          (filter (λ kv, tgfoid kv.2 ≠ name) (users_triggers c)) c)).

(** CREATE OR REPLACE FUNCTION public.name() .. SECURITY DEFINER run by
    [runner]: a new function is owned by [runner], a replaced one keeps
    its owner.  The statement is taken to go through: that it raises when a
    function of the name exists with another return type, or exists and
    may not be replaced by [runner], is left out. *)
Definition create_or_replace_function (name runner : string) (secdef : bool)
    : statement := λ c,
  let owner :=
    match functions c !! name with
    | Some f => Users.proowner f
    | None => runner
    end in
  Return
    (with_functions
       (<[name := {| Users.proowner := owner; Users.prosecdef := secdef |}]> (functions c))
       c).

(** The trigger CREATE TRIGGER .. BEFORE UPDATE .. FOR EACH ROW makes. *)
Definition before_update_row_trigger (fn : string) : pg_trigger :=
  {| tgtype := Z.lor (Z.lor TRIGGER_TYPE_ROW TRIGGER_TYPE_BEFORE) TRIGGER_TYPE_UPDATE;
     tgisinternal := false;
     tgfoid := fn |}.

(** CREATE TRIGGER name BEFORE UPDATE ON public.users FOR EACH ROW
    EXECUTE FUNCTION fn() *)
Definition create_trigger_before_update (name fn : string) : statement := λ c,
  match users_triggers c !! name, functions c !! fn with
  | Some _, _ => Raise (duplicate_object name)
  | None, None => Raise (undefined_function fn)
  | None, Some _ =>
      Return
        (with_users_triggers
           (<[name := before_update_row_trigger fn]> (users_triggers c)) c)
  end.

(** *** 20260221_phase18_fix_user_profile_trigger.sql *)
Definition phase18 (runner : string) : list statement :=
  [ drop_selected_triggers;
    drop_function_if_exists_cascade "restrict_user_profile_update";
    drop_function_if_exists_cascade "enforce_safe_profile_update";
    drop_function_if_exists_cascade "check_user_profile_update";
    create_or_replace_function "enforce_safe_user_profile_update" runner true;
    create_trigger_before_update "trg_enforce_safe_user_profile_update"
      "enforce_safe_user_profile_update";
    log_migration "20260221_phase18_fix_user_profile_trigger.sql" ].

(** *** 20260221_phase20_po_submission_columns_and_rls.sql *)
Definition phase20 : list statement :=
  [ add_column_if_not_exists "not_test_order_confirmed_at" "TIMESTAMPTZ" "NULL";
    add_column_if_not_exists "payment_terms_confirmed_at" "TIMESTAMPTZ" "NULL";
    add_column_if_not_exists "client_po_confirmation_submitted_at" "TIMESTAMPTZ" "NULL";
    add_column_if_not_exists "client_po_uploaded" "BOOLEAN" "FALSE";
    drop_policy_if_exists "Clients can update own PO fields";
    create_policy "Clients can update own PO fields"
      {| polcmd := for_update;
         polqual := Some SqlExpr.update_using_owner;
         polwithcheck := Some SqlExpr.phase20_update_with_check |};
    drop_policy_if_exists "Clients can create own orders";
    create_policy "Clients can create own orders"
      {| polcmd := for_insert;
         polqual := None;
         polwithcheck := Some SqlExpr.phase20_insert_with_check |};
    log_migration "20260221_phase20_po_submission_columns_and_rls.sql" ].

(** *** 20260221_phase21_fix_client_order_rls.sql *)
Definition phase21 : list statement :=
  [ drop_policy_if_exists "Clients can update own PO fields";
    create_policy "Clients can update own PO fields"
      {| polcmd := for_update;
         polqual := Some SqlExpr.update_using_owner;
         polwithcheck := Some SqlExpr.phase21_update_with_check |};
    log_migration "20260221_phase21_fix_client_order_rls.sql" ].

(** The migrations of the repository, run by [runner]. *)
Definition migrations (runner : string) : list (list statement) :=
  [ phase18 runner; phase20; phase21 ].

End Catalog.

(** ** src/components/DualPOFlow.tsx *)

Module DualPOFlow.

(** useState<'confirmation' | 'pending'>: the spec calls the two steps
    Unconfirmed and Submitted. *)
Inductive Step := confirmation | pending.

#[export] Instance Step_eq_dec : EqDecision Step.
Proof. solve_decision. Defined.

(** The four useState cells of the component. *)
Record State := {
  step : Step;
  submitting : bool;
  isNotTestOrderConfirmed : bool;
  isPaymentTermsConfirmed : bool;
}.

(** The initial values given to useState. *)
Definition initial : State :=
  {| step := confirmation;
     submitting := false;
     isNotTestOrderConfirmed := false;
     isPaymentTermsConfirmed := false |}.

Definition setStep (v : Step) (st : State) : State :=
  {| step := v;
     submitting := submitting st;
     isNotTestOrderConfirmed := isNotTestOrderConfirmed st;
     isPaymentTermsConfirmed := isPaymentTermsConfirmed st |}.

Definition setSubmitting (v : bool) (st : State) : State :=
  {| step := step st;
     submitting := v;
     isNotTestOrderConfirmed := isNotTestOrderConfirmed st;
     isPaymentTermsConfirmed := isPaymentTermsConfirmed st |}.

(** A value of type [string | null | undefined]: JavaScript takes null,
    undefined and the empty string as false. *)
Definition truthy (v : option string) : bool :=
  match v with
  | Some (String _ _) => true
  | Some EmptyString | None => false
  end.

(** [a || b] and [a && b] return one of their operands. *)
Definition js_or (a b : option string) : option string :=
  if truthy a then a else b.

Definition js_and (a b : option string) : option string :=
  if truthy a then b else a.

Definition Boolean (v : option string) : bool := truthy v.

(** const currentOrder = orders.find((item) => item.id === orderId) *)
Definition currentOrder (orders : list Orders.row) (orderId : string) : option Orders.row :=
  List.find (λ item, bool_decide (Orders.id item = orderId)) orders.

(** The body of the useEffect that restores the step. *)
Definition restoreEffect (currentOrder : option Orders.row) (st : State) : State :=
  match currentOrder with
  | None => st
  | Some o =>
      let hasSubmittedConfirmation :=
        Boolean
          (js_or (Orders.client_po_confirmation_submitted_at o)
                 (js_and (Orders.not_test_order_confirmed_at o)
                         (Orders.payment_terms_confirmed_at o))) in
      if hasSubmittedConfirmation then setStep pending st else st
  end.

(** Mounting the component: the initial state, then the effect. *)
Definition load (orders : list Orders.row) (orderId : string) : State :=
  restoreEffect (currentOrder orders orderId) initial.

(** *** The calls the submit handler makes *)

Record POConfirmation := {
  notTestOrderConfirmedAt : string;
  paymentTermsConfirmedAt : string;
  submittedAt : string;
}.

(** The object literal passed to updateOrder. *)
Record OrderUpdate := {
  status : string;
  not_test_order_confirmed_at : string;
  payment_terms_confirmed_at : string;
  client_po_confirmation_submitted_at : string;
}.

Record Notification := {
  type : string;
  title : string;
  message : string;
  actionUrl : string;
}.

Inductive call :=
  | submitClientPOConfirmation (orderId : string) (confirmation : POConfirmation)
  | updateOrder (orderId : string) (updates : OrderUpdate)
  | addNotification (n : Notification)
  | toast_success (msg : string)
  | toast_error (msg : string)
  | logger_error (msg error : string).

(** OrderStatus.PENDING_ADMIN_CONFIRMATION of types/types.ts. *)
Definition PENDING_ADMIN_CONFIRMATION : string := "PENDING_ADMIN_CONFIRMATION".

(** What the component gets from outside: the current user of the store,
    the clock, the translation function, and for each write whether it
    fails and with which error. *)
Record Env := {
  currentUser : option string;
  now : string;                    (* new Date().toISOString() *)
  t : string → string;
  failure : call → option string;
}.

(** The handler runs over the component state and the list of calls made so
    far, and either completes or throws. *)
Record World := {
  state : State;
  calls : list call;
}.

Inductive completion (A : Type) :=
  | Normal (a : A)
  | Throw (error : string).
Arguments Normal {A} a.
Arguments Throw {A} error.

Definition M (A : Type) := World → completion A * World.

#[export] Instance M_ret : MRet M := λ A a w, (Normal a, w).

#[export] Instance M_bind : MBind M := λ A B k m w,
  match m w with
  | (Normal a, w') => k a w'
  | (Throw e, w') => (Throw e, w')
  end.

(** try { body } catch (error) { handler error } *)
Definition try_catch {A} (body : M A) (handler : string → M A) : M A := λ w,
  match body w with
  | (Normal a, w') => (Normal a, w')
  | (Throw e, w') => handler e w'
  end.

(** try { body } finally { cleanup } *)
Definition try_finally {A} (body : M A) (cleanup : M ()) : M A := λ w,
  match body w with
  | (r, w') =>
      match cleanup w' with
      | (Normal _, w'') => (r, w'')
      | (Throw e, w'') => (Throw e, w'')
      end
  end.

Definition set (f : State → State) : M () := λ w,
  (Normal (), {| state := f (state w); calls := calls w |}).

(** A call of a write: it is recorded, and throws when the environment
    makes it fail. *)
Definition write (env : Env) (c : call) : M () := λ w,
  let w' := {| state := state w; calls := calls w ++ [c] |} in
  match failure env c with
  | None => (Normal (), w')
  | Some e => (Throw e, w')
  end.

(** A call of the toast or the logger. *)
Definition tell (c : call) : M () := λ w,
  (Normal (), {| state := state w; calls := calls w ++ [c] |}).

(** handleSubmitForConfirmation, for the render that shows state [st]. *)
Definition handleSubmitForConfirmation (env : Env) (orderId : string) (st : State) : M () :=
  if negb (bool_decide (is_Some (currentUser env))) then mret ()
  else if negb (isNotTestOrderConfirmed st) || negb (isPaymentTermsConfirmed st) then mret ()
  else
    set (setSubmitting true);;
    try_finally
      (try_catch
         (let confirmationTimestamp := now env in
          write env (submitClientPOConfirmation orderId
            {| notTestOrderConfirmedAt := confirmationTimestamp;
               paymentTermsConfirmedAt := confirmationTimestamp;
               submittedAt := confirmationTimestamp |});;
          write env (updateOrder orderId
            {| status := PENDING_ADMIN_CONFIRMATION;
               not_test_order_confirmed_at := confirmationTimestamp;
               payment_terms_confirmed_at := confirmationTimestamp;
               client_po_confirmation_submitted_at := confirmationTimestamp |});;
          write env (addNotification
            {| type := "order";
               title := t env "notifications.poSubmittedTitle";
               message := t env "notifications.poSubmittedMessage";
               actionUrl := "/app?tab=orders" |});;
          set (setStep pending);;
          tell (toast_success (t env "client.po.confirmationSubmitted")))
         (λ error,
            tell (logger_error "Failed to submit PO confirmation:" error);;
            tell (toast_error (t env "client.po.confirmationSubmitError"))))
      (set (setSubmitting false)).

(** A click on the submit button in state [st]: the calls made and the
    state after the handler has run. *)
Definition submit (env : Env) (orderId : string) (st : State) : completion () * World :=
  handleSubmitForConfirmation env orderId st {| state := st; calls := [] |}.

Definition is_write (c : call) : bool :=
  match c with
  | submitClientPOConfirmation _ _ | updateOrder _ _ | addNotification _ => true
  | _ => false
  end.

Definition is_notification (c : call) : bool :=
  match c with
  | addNotification _ => true
  | _ => false
  end.

End DualPOFlow.

(** ** Concrete rows, sessions and catalogs used by the examples *)

Module Examples.

Definition order1 : Orders.row :=
  {| Orders.id := "order-1";
     Orders.client_id := "client-1";
     Orders.supplier_id := "supplier-1";
     Orders.status := "PENDING_PO";
     Orders.amount := 1500%Z;
     Orders.not_test_order_confirmed_at := None;
     Orders.payment_terms_confirmed_at := None;
     Orders.client_po_confirmation_submitted_at := None;
     Orders.client_po_uploaded := Some false;
     Orders.payment_reference := None;
     Orders.payment_notes := None;
     Orders.payment_submitted_at := None |}.

Definition order2 : Orders.row :=
  {| Orders.id := "order-2";
     Orders.client_id := "client-1";
     Orders.supplier_id := "supplier-2";
     Orders.status := "PENDING_PO";
     Orders.amount := 320%Z;
     Orders.not_test_order_confirmed_at := None;
     Orders.payment_terms_confirmed_at := None;
     Orders.client_po_confirmation_submitted_at := None;
     Orders.client_po_uploaded := Some false;
     Orders.payment_reference := None;
     Orders.payment_notes := None;
     Orders.payment_submitted_at := None |}.

(** SET status = v *)
Definition set_status (v : string) (o : Orders.row) : Orders.row :=
  {| Orders.id := Orders.id o;
     Orders.client_id := Orders.client_id o;
     Orders.supplier_id := Orders.supplier_id o;
     Orders.status := v;
     Orders.amount := Orders.amount o;
     Orders.not_test_order_confirmed_at := Orders.not_test_order_confirmed_at o;
     Orders.payment_terms_confirmed_at := Orders.payment_terms_confirmed_at o;
     Orders.client_po_confirmation_submitted_at := Orders.client_po_confirmation_submitted_at o;
     Orders.client_po_uploaded := Orders.client_po_uploaded o;
     Orders.payment_reference := Orders.payment_reference o;
     Orders.payment_notes := Orders.payment_notes o;
     Orders.payment_submitted_at := Orders.payment_submitted_at o |}.

(** SET client_id = v *)
Definition set_client_id (v : uuid) (o : Orders.row) : Orders.row :=
  {| Orders.id := Orders.id o;
     Orders.client_id := v;
     Orders.supplier_id := Orders.supplier_id o;
     Orders.status := Orders.status o;
     Orders.amount := Orders.amount o;
     Orders.not_test_order_confirmed_at := Orders.not_test_order_confirmed_at o;
     Orders.payment_terms_confirmed_at := Orders.payment_terms_confirmed_at o;
     Orders.client_po_confirmation_submitted_at := Orders.client_po_confirmation_submitted_at o;
     Orders.client_po_uploaded := Orders.client_po_uploaded o;
     Orders.payment_reference := Orders.payment_reference o;
     Orders.payment_notes := Orders.payment_notes o;
     Orders.payment_submitted_at := Orders.payment_submitted_at o |}.

(** SET not_test_order_confirmed_at = ts, payment_terms_confirmed_at = ts,
        client_po_confirmation_submitted_at = ts, client_po_uploaded = TRUE *)
Definition set_confirmation (ts : string) (o : Orders.row) : Orders.row :=
  {| Orders.id := Orders.id o;
     Orders.client_id := Orders.client_id o;
     Orders.supplier_id := Orders.supplier_id o;
     Orders.status := Orders.status o;
     Orders.amount := Orders.amount o;
     Orders.not_test_order_confirmed_at := Some ts;
     Orders.payment_terms_confirmed_at := Some ts;
     Orders.client_po_confirmation_submitted_at := Some ts;
     Orders.client_po_uploaded := Some true;
     Orders.payment_reference := Orders.payment_reference o;
     Orders.payment_notes := Orders.payment_notes o;
     Orders.payment_submitted_at := Orders.payment_submitted_at o |}.

(** SET amount = a, supplier_id = v *)
Definition set_amount_and_supplier (a : Z) (v : uuid) (o : Orders.row) : Orders.row :=
  {| Orders.id := Orders.id o;
     Orders.client_id := Orders.client_id o;
     Orders.supplier_id := v;
     Orders.status := Orders.status o;
     Orders.amount := a;
     Orders.not_test_order_confirmed_at := Orders.not_test_order_confirmed_at o;
     Orders.payment_terms_confirmed_at := Orders.payment_terms_confirmed_at o;
     Orders.client_po_confirmation_submitted_at := Orders.client_po_confirmation_submitted_at o;
     Orders.client_po_uploaded := Orders.client_po_uploaded o;
     Orders.payment_reference := Orders.payment_reference o;
     Orders.payment_notes := Orders.payment_notes o;
     Orders.payment_submitted_at := Orders.payment_submitted_at o |}.

(** A signed-in client, and another one. *)
Definition client1 : Session :=
  {| current_user := "authenticated";
     auth_uid := Some "client-1";
     get_user_role := Some "CLIENT" |}.

Definition client2 : Session :=
  {| current_user := "authenticated";
     auth_uid := Some "client-2";
     get_user_role := Some "CLIENT" |}.

(** The owner of [order1] signed in under a role that is not CLIENT. *)
Definition client1_as_supplier : Session :=
  {| current_user := "authenticated";
     auth_uid := Some "client-1";
     get_user_role := Some "SUPPLIER" |}.

Definition user1 : Users.row :=
  {| Users.id := "client-1";
     Users.role := Some "CLIENT";
     Users.verified := Some false;
     Users.status := Some "ACTIVE";
     Users.kyc_status := Some "PENDING";
     Users.public_id := Some "C-0001";
     Users.date_joined := Some "2026-01-10";
     Users.credit_limit := Some 100000%Z;
     Users.credit_used := Some 0%Z;
     Users.current_balance := Some 0%Z;
     Users.rating := Some 4%Z |}.

Definition admin1 : Users.row :=
  {| Users.id := "admin-1";
     Users.role := Some "ADMIN";
     Users.verified := Some true;
     Users.status := Some "ACTIVE";
     Users.kyc_status := Some "VERIFIED";
     Users.public_id := Some "A-0001";
     Users.date_joined := Some "2025-06-01";
     Users.credit_limit := Some 0%Z;
     Users.credit_used := Some 0%Z;
     Users.current_balance := Some 0%Z;
     Users.rating := None |}.

(** SET role = v *)
Definition set_role (v : string) (u : Users.row) : Users.row :=
  {| Users.id := Users.id u;
     Users.role := Some v;
     Users.verified := Users.verified u;
     Users.status := Users.status u;
     Users.kyc_status := Users.kyc_status u;
     Users.public_id := Users.public_id u;
     Users.date_joined := Users.date_joined u;
     Users.credit_limit := Users.credit_limit u;
     Users.credit_used := Users.credit_used u;
     Users.current_balance := Users.current_balance u;
     Users.rating := Users.rating u |}.

(** SET credit_used = a, current_balance = b, rating = r *)
Definition set_counters (a b r : Z) (u : Users.row) : Users.row :=
  {| Users.id := Users.id u;
     Users.role := Users.role u;
     Users.verified := Users.verified u;
     Users.status := Users.status u;
     Users.kyc_status := Users.kyc_status u;
     Users.public_id := Users.public_id u;
     Users.date_joined := Users.date_joined u;
     Users.credit_limit := Users.credit_limit u;
     Users.credit_used := Some a;
     Users.current_balance := Some b;
     Users.rating := Some r |}.

(** A signed-in user whose id has no row in public.users. *)
Definition stranger : Session :=
  {| current_user := "authenticated";
     auth_uid := Some "ghost-9";
     get_user_role := None |}.

(** A database before the three migrations: public.orders with its
    original columns, no policy, no trigger, an empty log. *)
Definition column (type : string) : Catalog.column_def :=
  {| Catalog.coltype := type; Catalog.coldefault := "" |}.

Definition fresh : Catalog.catalog :=
  {| Catalog.orders_columns :=
       list_to_map
         [("id", column "UUID"); ("client_id", column "UUID");
          ("supplier_id", column "UUID"); ("status", column "TEXT");
          ("amount", column "NUMERIC")];
     Catalog.orders_policies := ∅;
     Catalog.users_triggers := ∅;
     Catalog.functions := ∅;
     Catalog.migration_log := [] |}.

(** The clock and the translations of a browser session in which every
    write succeeds. *)
Definition online : DualPOFlow.Env :=
  {| DualPOFlow.currentUser := Some "client-1";
     DualPOFlow.now := "2026-02-21T10:15:00.000Z";
     DualPOFlow.t := λ key, key;
     DualPOFlow.failure := λ _, None |}.

(** The same session with the store unreachable: updateOrder rejects. *)
Definition offline : DualPOFlow.Env :=
  {| DualPOFlow.currentUser := Some "client-1";
     DualPOFlow.now := "2026-02-21T10:15:00.000Z";
     DualPOFlow.t := λ key, key;
     DualPOFlow.failure := λ c,
       match c with
       | DualPOFlow.updateOrder _ _ => Some "TypeError: Failed to fetch"
       | _ => None
       end |}.

(** Both boxes ticked, nothing submitted yet. *)
Definition ticked : DualPOFlow.State :=
  {| DualPOFlow.step := DualPOFlow.confirmation;
     DualPOFlow.submitting := false;
     DualPOFlow.isNotTestOrderConfirmed := true;
     DualPOFlow.isPaymentTermsConfirmed := true |}.

End Examples.

(** ** DualPOFlow.tsx: what is rendered and the events it handles *)

Module DualPOFlowView.

Import DualPOFlow.

Definition setIsNotTestOrderConfirmed (v : bool) (st : State) : State :=
  {| step := step st;
     submitting := submitting st;
     isNotTestOrderConfirmed := v;
     isPaymentTermsConfirmed := isPaymentTermsConfirmed st |}.

Definition setIsPaymentTermsConfirmed (v : bool) (st : State) : State :=
  {| step := step st;
     submitting := submitting st;
     isNotTestOrderConfirmed := isNotTestOrderConfirmed st;
     isPaymentTermsConfirmed := v |}.

(** {step === 'confirmation' && (...)}: the two checkboxes, Cancel and
    Submit are rendered in this step only. *)
Definition confirmation_panel (st : State) : bool :=
  bool_decide (step st = confirmation).

(** {step === 'pending' && (...)}: the Done button. *)
Definition pending_panel (st : State) : bool :=
  bool_decide (step st = pending).

(** disabled={submitting || !isNotTestOrderConfirmed || !isPaymentTermsConfirmed} *)
Definition submit_disabled (st : State) : bool :=
  submitting st || negb (isNotTestOrderConfirmed st) || negb (isPaymentTermsConfirmed st).

(** The three writes of handleSubmitForConfirmation with their arguments, in
    the order in which the handler makes them. *)
Definition writes (env : Env) (orderId : string) : list call :=
  [ submitClientPOConfirmation orderId
      {| notTestOrderConfirmedAt := now env;
         paymentTermsConfirmedAt := now env;
         submittedAt := now env |};
    updateOrder orderId
      {| status := PENDING_ADMIN_CONFIRMATION;
         not_test_order_confirmed_at := now env;
         payment_terms_confirmed_at := now env;
         client_po_confirmation_submitted_at := now env |};
    addNotification
      {| type := "order";
         title := t env "notifications.poSubmittedTitle";
         message := t env "notifications.poSubmittedMessage";
         actionUrl := "/app?tab=orders" |} ].

(** What can happen to a mounted component: the user acts on a control, or
    the orders of the store change (a re-render, after which the effect
    runs again when one of its dependencies has changed). *)
Inductive event :=
  | change_not_test_order (checked : bool)
  | change_payment_terms (checked : bool)
  | click_submit
  | click_cancel
  | click_done
  | orders_changed (orders : list Orders.row).

(** What the component does to the outside: a call of [DualPOFlow.call], or
    one of the two callbacks it was given as props. *)
Inductive output :=
  | called (c : call)
  | onCancel
  | onComplete.

(** One event in state [st].  A control that is not rendered, and a
    disabled button, receive no event. *)
Definition dispatch (env : Env) (orderId : string) (st : State) (ev : event)
    : State * list output :=
  match ev with
  | change_not_test_order checked =>
      if confirmation_panel st then (setIsNotTestOrderConfirmed checked st, [])
      else (st, [])
  | change_payment_terms checked =>
      if confirmation_panel st then (setIsPaymentTermsConfirmed checked st, [])
      else (st, [])
  | click_submit =>
      if confirmation_panel st && negb (submit_disabled st) then
        let w := (submit env orderId st).2 in
        (state w, called <$> calls w)
      else (st, [])
  | click_cancel =>
      if confirmation_panel st then (st, [onCancel]) else (st, [])
  | click_done =>
      if pending_panel st then (st, [onComplete]) else (st, [])
  | orders_changed orders =>
      (restoreEffect (currentOrder orders orderId) st, [])
  end.

(** A session: each event comes with the environment of its moment. *)
Fixpoint session (orderId : string) (st : State) (evs : list (Env * event))
    : State * list output :=
  match evs with
  | [] => (st, [])
  | (env, ev) :: evs' =>
      let (st', out) := dispatch env orderId st ev in
      let (st'', out') := session orderId st' evs' in
      (st'', out ++ out')
  end.

End DualPOFlowView.

(** ** More rows, sessions and catalogs for the examples *)

Module Scenarios.

(** No end-user session: auth.uid() is NULL. *)
Definition anonymous : Session :=
  {| current_user := "anon";
     auth_uid := None;
     get_user_role := None |}.

(** An administrator signed in. *)
Definition admin_session : Session :=
  {| current_user := "authenticated";
     auth_uid := Some "admin-1";
     get_user_role := Some "ADMIN" |}.

(** An AFTER UPDATE row trigger that writes an audit trail. *)
Definition audit_trigger : Catalog.pg_trigger :=
  {| Catalog.tgtype := Z.lor Catalog.TRIGGER_TYPE_ROW Catalog.TRIGGER_TYPE_UPDATE;
     Catalog.tgisinternal := false;
     Catalog.tgfoid := "audit_users" |}.

(** A BEFORE INSERT row trigger, as auto_public_id_trigger is. *)
Definition insert_trigger (fn : string) : Catalog.pg_trigger :=
  {| Catalog.tgtype :=
       Z.lor (Z.lor Catalog.TRIGGER_TYPE_ROW Catalog.TRIGGER_TYPE_BEFORE)
             Catalog.TRIGGER_TYPE_INSERT;
     Catalog.tgisinternal := false;
     Catalog.tgfoid := fn |}.

Definition function_of (owner : string) : Users.pg_proc :=
  {| Users.proowner := owner; Users.prosecdef := false |}.

(** A database with triggers on public.users from earlier migrations: the
    restrictive guard phase 18 is after, the timestamp helper, the public
    id generator and an audit trigger. *)
Definition legacy : Catalog.catalog :=
  {| Catalog.orders_columns := Catalog.orders_columns Examples.fresh;
     Catalog.orders_policies := ∅;
     Catalog.users_triggers :=
       list_to_map
         [("trg_restrict_user_profile_update",
           Catalog.before_update_row_trigger "restrict_user_profile_update");
          ("update_users_updated_at",
           Catalog.before_update_row_trigger "update_updated_at_column");
          ("auto_public_id_trigger", insert_trigger "generate_public_id");
          ("trg_audit_users", audit_trigger)];
     Catalog.functions :=
       list_to_map
         [("restrict_user_profile_update", function_of "postgres");
          ("update_updated_at_column", function_of "postgres");
          ("generate_public_id", function_of "postgres");
          ("audit_users", function_of "postgres")];
     Catalog.migration_log := ["20260220_phase17.sql"] |}.

(** A database in which the name of the new trigger is taken by a trigger
    that does not fire on UPDATE. *)
Definition name_taken : Catalog.catalog :=
  {| Catalog.orders_columns := Catalog.orders_columns Examples.fresh;
     Catalog.orders_policies := ∅;
     Catalog.users_triggers :=
       list_to_map
         [("trg_enforce_safe_user_profile_update", insert_trigger "generate_public_id")];
     Catalog.functions := list_to_map [("generate_public_id", function_of "postgres")];
     Catalog.migration_log := [] |}.


(** A browser session without a signed-in user. *)
Definition signed_out : DualPOFlow.Env :=
  {| DualPOFlow.currentUser := None;
     DualPOFlow.now := "2026-02-21T10:15:00.000Z";
     DualPOFlow.t := λ key, key;
     DualPOFlow.failure := λ _, None |}.

(** [order1] with an empty string where a timestamp is expected. *)
Definition order_with_empty_timestamp : Orders.row :=
  {| Orders.id := "order-1";
     Orders.client_id := "client-1";
     Orders.supplier_id := "supplier-1";
     Orders.status := "PENDING_PO";
     Orders.amount := 1500%Z;
     Orders.not_test_order_confirmed_at := None;
     Orders.payment_terms_confirmed_at := None;
     Orders.client_po_confirmation_submitted_at := Some "";
     Orders.client_po_uploaded := Some false;
     Orders.payment_reference := None;
     Orders.payment_notes := None;
     Orders.payment_submitted_at := None |}.

End Scenarios.

(** * Properties *)

(** ** The policies of public.orders *)

Section OrderPolicies.

Import Orders.

Implicit Types (s : Session) (tbl : list row) (old new cur : row).

Lemma sql_eq_refl {A} `{EqDecision A} (x : A) : sql_eq (Some x) (Some x) = Some true.
Proof. unfold sql_eq. by rewrite bool_decide_eq_true_2. Qed.

Lemma sql_eq_true {A} `{EqDecision A} (a b : option A) :
  is_true (sql_eq a b) = true ↔ ∃ x, a = Some x ∧ b = Some x.
Proof.
  destruct a as [x|], b as [y|]; simpl.
  - case_bool_decide as Hxy; simpl; split.
    + intros _. exists x. by rewrite Hxy.
    + done.
    + done.
    + intros (z & Hx & Hy). congruence.
  - split; [done | by intros (z & Hx & Hy)].
  - split; [done | by intros (z & Hx & Hy)].
  - split; [done | by intros (z & Hx & Hy)].
Qed.

(** The WHERE clause of the subquery keeps every row. *)
Lemma subquery_scans_every_row tbl :
  filter (λ orders, id orders = id orders) tbl = tbl.
Proof.
  induction tbl as [|o tbl IH]; [done|].
  rewrite filter_cons_True; [|done]. by rewrite IH.
Qed.

Lemma current_status_subquery_eq tbl :
  current_status_subquery tbl = scalar_subquery (status <$> tbl).
Proof. unfold current_status_subquery. by rewrite subquery_scans_every_row. Qed.

(** The INSERT policy passes exactly for an owner whose role is CLIENT. *)
Lemma check_insert_allowed s new :
  check_insert s new = Allowed
  ↔ auth_uid s = Some (client_id new) ∧ get_user_role s = Some "CLIENT".
Proof.
  unfold check_insert, insert_with_check, sql_and.
  destruct (auth_uid s) as [u|], (get_user_role s) as [r|]; simpl;
    repeat (case_bool_decide; simpl); split; try done;
    try (intros [Hu Hr]; congruence); intros _; split; congruence.
Qed.

(** The UPDATE policy passes only for the owner of the existing row. *)
Lemma check_update_allowed_using s tbl old new :
  check_update s tbl old new = Allowed → auth_uid s = Some (client_id old).
Proof.
  unfold check_update, update_using.
  destruct (is_true (sql_eq _ _)) eqn:E; [|done].
  apply sql_eq_true in E as (x & -> & [= ->]). done.
Qed.

(** It passes only when the subquery returned one row, the caller owns the
    proposed row, and the proposed status is the status that row has. *)
Lemma check_update_allowed_with_check s tbl old new :
  check_update s tbl old new = Allowed →
  auth_uid s = Some (client_id new) ∧ ∃ r, tbl = [r] ∧ status new = status r.
Proof.
  unfold check_update, update_using, update_with_check.
  rewrite current_status_subquery_eq.
  destruct (is_true (sql_eq _ (Some (client_id old)))); [|done].
  destruct (auth_uid s) as [u|]; simpl.
  - case_bool_decide as Hu; simpl; [|done].
    destruct tbl as [|r [|r' tbl]]; simpl; try done.
    case_bool_decide as Hs; simpl; intros Hd; [|discriminate Hd].
    subst. eauto.
  - destruct tbl as [|r [|r' tbl]]; simpl; try done.
    by case_bool_decide.
Qed.

(** With one row in the table, the policy passes exactly when the caller
    owns the row before and after and the status is the stored one. *)
Lemma check_update_single_row s cur new :
  check_update s [cur] cur new = Allowed
  ↔ auth_uid s = Some (client_id cur)
    ∧ client_id new = client_id cur
    ∧ status new = status cur.
Proof.
  split.
  - intros H. pose proof (check_update_allowed_using _ _ _ _ H) as Hu.
    apply check_update_allowed_with_check in H as (Hn & r & [= <-] & Hs).
    split_and!; congruence.
  - intros (Hu & Hc & Hs).
    unfold check_update, update_using, update_with_check, current_status_subquery.
    rewrite Hu, Hc, Hs, sql_eq_refl. simpl.
    rewrite filter_cons_True; [|done]. simpl.
    by rewrite !bool_decide_eq_true_2.
Qed.

(** With two rows or more in the table, the subquery raises for every
    update an owner attempts. *)
Lemma check_update_several_rows s r1 r2 tbl old new :
  auth_uid s = Some (client_id old) →
  client_id new = client_id old →
  check_update s (r1 :: r2 :: tbl) old new = Rejected cardinality_violation.
Proof.
  intros Hu Hc.
  unfold check_update, update_using, update_with_check.
  rewrite current_status_subquery_eq, Hu, Hc, sql_eq_refl. done.
Qed.

End OrderPolicies.

(** ** The policies: what a client may write *)

Section OrderClaims.

Import Orders.

Implicit Types (s : Session) (tbl : list row) (old new cur O : row).




(** C2. A principal whose id is not the [client_id] of order row [O] can
    neither insert [O], nor update [O], nor turn another row into [O]; and
    an insert is rejected unless [get_user_role()] is CLIENT, also for the
    owner of the new row. *)
Theorem non_owner_and_non_client_denied s O :
  (auth_uid s ≠ Some (client_id O) →
     (∀ tbl, insert_order s tbl O = Raise rls_violation)
     ∧ ∀ tbl other,
         check_update s tbl O other = Filtered
         ∧ check_update s tbl other O ≠ Allowed)
  ∧ (get_user_role s ≠ Some "CLIENT" →
     ∀ tbl, insert_order s tbl O = Raise rls_violation).
Proof.
  assert (∀ s' O' tbl, check_insert s' O' ≠ Allowed →
                       insert_order s' tbl O' = Raise rls_violation) as Hins.
  { intros s' O' tbl. unfold insert_order, check_insert, insert_with_check, sql_and.
    destruct (sql_eq (auth_uid s') (Some (client_id O'))) as [[]|],
      (sql_eq (get_user_role s') (Some "CLIENT")) as [[]|]; simpl; done. }
  split.
  - intros Hne. split; [|intros tbl other; split].
    + intros tbl. apply Hins. rewrite check_insert_allowed. by intros [? _].
    + unfold check_update, update_using.
      destruct (is_true (sql_eq (auth_uid s) (Some (client_id O)))) eqn:E; [|done].
      apply sql_eq_true in E as (x & Hx & Hy). congruence.
    + intros Hall. by apply check_update_allowed_with_check in Hall as [? _].
  - intros Hne tbl. apply Hins. rewrite check_insert_allowed. by intros [_ ?].
Qed.

(** [client2] against a row of [client1]; the owner of the row inserting
    it under the role SUPPLIER. *)
Lemma non_owner_and_non_client_denied_witness :
  (insert_order Examples.client2 [] Examples.order1 = Raise rls_violation
   ∧ check_update Examples.client2 [Examples.order1] Examples.order1
       (Examples.set_confirmation "2026-02-21T10:15:00.000Z" Examples.order1) = Filtered)
  ∧ insert_order Examples.client1_as_supplier [] Examples.order1 = Raise rls_violation.
Proof.
  destruct (non_owner_and_non_client_denied Examples.client2 Examples.order1) as [Howner _].
  destruct (non_owner_and_non_client_denied Examples.client1_as_supplier Examples.order1)
    as [_ Hrole].
  split.
  - destruct Howner as [Hi Hu]; [vm_compute; discriminate|].
    split; [exact (Hi [])|].
    exact (proj1 (Hu [Examples.order1]
                    (Examples.set_confirmation "2026-02-21T10:15:00.000Z" Examples.order1))).
  - apply Hrole. vm_compute. discriminate.
Defined.

(** An UPDATE statement that succeeds has changed rows of the caller only. *)
Lemma update_order_changes_own_rows_only s tbl target set rows rows' :
  update_rows s tbl target set rows = Return rows' →
  Forall2 (λ r r', r' = r ∨ auth_uid s = Some (client_id r)) rows rows'.
Proof.
  revert rows'. induction rows as [|r rows IH]; intros rows'; simpl.
  - intros [= <-]. constructor.
  - case_bool_decide.
    + destruct (check_update s tbl r (set r)) eqn:E; [| |done].
      * destruct (update_rows s tbl target set rows) as [rest|]; [|done].
        intros [= <-]. constructor; [|by apply IH].
        right. by apply check_update_allowed_using in E.
      * destruct (update_rows s tbl target set rows) as [rest|]; [|done].
        intros [= <-]. constructor; [by left | by apply IH].
    + destruct (update_rows s tbl target set rows) as [rest|]; [|done].
      intros [= <-]. constructor; [by left | by apply IH].
Qed.

(** C5, on the code.  [client-1] owns two orders and sets the three
    confirmation timestamps and [client_po_uploaded] on one of them,
    leaving [status] as it is: the subquery of the policy returns the
    status of both rows, the WITH CHECK expression of phase 21 raises, and
    so does the statement.  The same happens when only [amount] and
    [supplier_id] are changed. *)
Theorem client_update_keeping_status_raises :
  SqlExpr.eval_cond Examples.client1 [Examples.order1; Examples.order2]
    [("orders", Examples.set_confirmation "2026-02-21T10:15:00.000Z" Examples.order1)]
    SqlExpr.phase21_update_with_check
    = Raise cardinality_violation
  ∧ check_update Examples.client1 [Examples.order1; Examples.order2] Examples.order1
      (Examples.set_confirmation "2026-02-21T10:15:00.000Z" Examples.order1)
    = Rejected cardinality_violation
  ∧ update_order Examples.client1 [Examples.order1; Examples.order2] "order-1"
      (Examples.set_confirmation "2026-02-21T10:15:00.000Z")
    = Raise cardinality_violation
  ∧ update_order Examples.client1 [Examples.order1; Examples.order2] "order-1"
      (Examples.set_amount_and_supplier 1 "supplier-9")
    = Raise cardinality_violation.
Proof. by vm_compute. Qed.

(** When the row is the only one the subquery reads, an update by the owner
    that keeps [status] and [client_id] passes whatever else it changes. *)
Lemma only_row_update_keeping_status_allowed s cur (set : row → row) :
  auth_uid s = Some (client_id cur) →
  client_id (set cur) = client_id cur →
  status (set cur) = status cur →
  update_order s [cur] (id cur) set = Return [set cur].
Proof.
  intros Hu Hc Hs. unfold update_order. simpl.
  rewrite bool_decide_eq_true_2 by done.
  by rewrite (proj2 (check_update_single_row s cur (set cur))).
Qed.

(** The owner cannot hand the row over to another client: WITH CHECK wants
    the caller to own the proposed row as well. *)
Lemma owner_cannot_give_row_away :
  update_order Examples.client1 [Examples.order1] "order-1"
    (Examples.set_client_id "client-2") = Raise rls_violation.
Proof. by vm_compute. Qed.

End OrderClaims.

(** ** The functions of [Orders] are the policy expressions of the migrations *)

Section PolicyExpressions.

Import SqlExpr.

Implicit Types (s : Session) (tbl : list Orders.row) (ρ : env).

(** [WHERE id = orders.id] inside the subquery: both sides are the row the
    subquery scans, whatever the outer rows are. *)
Lemma where_id_eq_orders_id s tbl ρ o :
  eval_cond s tbl (("orders", o) :: ρ) (eq (col None "id") (col (Some "orders") "id"))
  = Return (Some true).
Proof. simpl. by rewrite bool_decide_eq_true_2. Qed.

Lemma where_rows_true (p : Orders.row → res tri) rows :
  (∀ o, p o = Return (Some true)) → where_rows p rows = Return rows.
Proof.
  intros Hp. induction rows as [|o rows IH]; [done|].
  simpl. by rewrite Hp, IH.
Qed.

Lemma select_status_rows ρ rows :
  select_rows "status" "orders" ρ rows = Return (Some ∘ Orders.status <$> rows).
Proof.
  induction rows as [|o rows IH]; [done|].
  simpl in *. by rewrite IH.
Qed.

Lemma eval_phase21_update_with_check s tbl new :
  eval_cond s tbl [("orders", new)] phase21_update_with_check
  = Orders.update_with_check s tbl new.
Proof.
  unfold phase21_update_with_check, Orders.update_with_check.
  rewrite current_status_subquery_eq.
  cbn [eval_cond eval_scalar]. f_equal.
  rewrite where_rows_true by (intros o; simpl; by rewrite bool_decide_eq_true_2).
  cbn [mbind res_bind]. rewrite select_status_rows.
  by destruct tbl as [|r [|r' tbl]].
Qed.

Lemma eval_update_using s tbl old :
  eval_cond s tbl [("orders", old)] update_using_owner = Orders.update_using s old.
Proof. done. Qed.

Lemma eval_phase20_insert_with_check s tbl new :
  eval_cond s tbl [("orders", new)] phase20_insert_with_check
  = Orders.insert_with_check s new.
Proof. done. Qed.

(** [OLD] names no range-table entry of a policy expression. *)
Lemma phase20_update_with_check_unresolved tables columns :
  ∃ e, analyse_cond tables [("orders", columns)] phase20_update_with_check = Raise e.
Proof.
  unfold phase20_update_with_check. simpl.
  repeat (case_bool_decide; simpl); eauto.
Qed.

End PolicyExpressions.

(** ** The guard on public.users *)

Section UserGuard.

Import Users.

Implicit Types (s : Session) (users : list row) (OLD NEW : row) (fn : pg_proc).

(** An update that changes none of the seven columns passes the body
    whoever runs it: [credit_used], [current_balance] and [rating] are not
    looked at. *)
Lemma safe_columns_pass cu uid users OLD NEW :
  sensitive_column_changed OLD NEW = false →
  enforce_safe_user_profile_update cu uid users OLD NEW = Return NEW.
Proof.
  intros Hsafe. unfold enforce_safe_user_profile_update. rewrite Hsafe.
  destruct (negb _); [done|]. destruct uid; [|done]. by destruct (is_true _).
Qed.

(** Inside the body, with [current_user] one of the two end-user roles, a
    caller that is not ADMIN cannot change a sensitive column. *)
Lemma body_rejects_sensitive_change cu caller users OLD NEW :
  cu ∈ ["authenticated"; "anon"] →
  select_role_into users caller ≠ Some "ADMIN" →
  sensitive_column_changed OLD NEW = true →
  enforce_safe_user_profile_update cu (Some caller) users OLD NEW = Raise rejection.
Proof.
  intros Hcu Hrole Hchg. unfold enforce_safe_user_profile_update.
  rewrite bool_decide_eq_true_2 by done. simpl. rewrite Hchg.
  destruct (is_true (sql_eq (select_role_into users caller) (Some "ADMIN"))) eqn:E; [|done].
  apply sql_eq_true in E as (x & Hx & [= <-]). done.
Qed.

(** C4. The body of the guard returns NEW (1) whenever [current_user], as
    the body sees it, is neither [authenticated] nor [anon], whatever the
    caller and the columns; (2) whenever [auth.uid()] is NULL; (3) whenever
    the role read from public.users for the caller is ADMIN; and applies
    the test on the seven sensitive columns in the remaining case only. *)
Theorem guard_check_order cu uid users OLD NEW :
  (cu ∉ ["authenticated"; "anon"] →
     enforce_safe_user_profile_update cu uid users OLD NEW = Return NEW)
  ∧ (uid = None →
     enforce_safe_user_profile_update cu uid users OLD NEW = Return NEW)
  ∧ (∀ caller, uid = Some caller →
     select_role_into users caller = Some "ADMIN" →
     enforce_safe_user_profile_update cu uid users OLD NEW = Return NEW)
  ∧ (cu ∈ ["authenticated"; "anon"] →
     ∀ caller, uid = Some caller →
     select_role_into users caller ≠ Some "ADMIN" →
     enforce_safe_user_profile_update cu uid users OLD NEW
     = if sensitive_column_changed OLD NEW then Raise rejection else Return NEW).
Proof.
  unfold enforce_safe_user_profile_update. split_and!.
  - intros Hcu. by rewrite bool_decide_eq_false_2.
  - intros ->. by destruct (negb _).
  - intros caller -> ->. by destruct (negb _).
  - intros Hcu caller -> Hrole.
    rewrite bool_decide_eq_true_2 by done. simpl.
    destruct (is_true (sql_eq (select_role_into users caller) (Some "ADMIN"))) eqn:E; [|done].
    apply sql_eq_true in E as (x & Hx & [= <-]). done.
Qed.

(** The four cases on [user1] asking for the ADMIN role. *)
Lemma guard_check_order_witness :
  let NEW := Examples.set_role "ADMIN" Examples.user1 in
  let users := [Examples.user1; Examples.admin1] in
  enforce_safe_user_profile_update "postgres" (Some "client-1") users Examples.user1 NEW
    = Return NEW
  ∧ enforce_safe_user_profile_update "authenticated" None users Examples.user1 NEW
    = Return NEW
  ∧ enforce_safe_user_profile_update "authenticated" (Some "admin-1") users Examples.user1 NEW
    = Return NEW
  ∧ enforce_safe_user_profile_update "authenticated" (Some "client-1") users Examples.user1 NEW
    = Raise rejection.
Proof.
  intros NEW users.
  destruct (guard_check_order "postgres" (Some "client-1") users Examples.user1 NEW)
    as (Htrusted & _).
  destruct (guard_check_order "authenticated" None users Examples.user1 NEW)
    as (_ & Hanonymous & _).
  destruct (guard_check_order "authenticated" (Some "admin-1") users Examples.user1 NEW)
    as (_ & _ & Hadmin & _).
  destruct (guard_check_order "authenticated" (Some "client-1") users Examples.user1 NEW)
    as (_ & _ & _ & Hguard).
  split_and!.
  - apply Htrusted. apply (bool_decide_unpack _). vm_compute. exact I.
  - apply Hanonymous. reflexivity.
  - apply (Hadmin "admin-1"); reflexivity.
  - apply (Hguard (list_elem_of_here _ _) "client-1"); [reflexivity|].
    vm_compute. discriminate.
Defined.

(** The function phase 18 creates is SECURITY DEFINER: its body runs as the
    owner of the function, so that when the migration was run by a role
    other than [authenticated] and [anon] the first test of the body
    returns NEW for every caller. *)
Lemma guard_function_lets_everything_through runner s users OLD NEW :
  runner ∉ ["authenticated"; "anon"] →
  fire_guard (guard_function runner) s users OLD NEW = Return NEW.
Proof.
  intros Hrunner. unfold fire_guard, enforce_safe_user_profile_update. simpl.
  by rewrite bool_decide_eq_false_2.
Qed.

(** C3, on the code.  The migration is run by [postgres] on a fresh
    database, which makes [postgres] the owner of the SECURITY DEFINER
    function behind the trigger.  [client-1], a CLIENT, signs in and
    updates its own profile row directly, asking for the ADMIN role: the
    function runs as [postgres], returns NEW, and the row is written with
    the role changed.  An update of the three counters alone passes as
    well. *)
Theorem direct_role_change_not_rejected :
  ∃ c fn,
    Catalog.run (Catalog.phase18 "postgres") Examples.fresh = Return c
    ∧ Catalog.functions c !! "enforce_safe_user_profile_update" = Some fn
    ∧ Catalog.users_triggers c !! "trg_enforce_safe_user_profile_update"
      = Some (Catalog.before_update_row_trigger "enforce_safe_user_profile_update")
    ∧ current_user Examples.client1 = "authenticated"
    ∧ select_role_into [Examples.user1; Examples.admin1] "client-1" = Some "CLIENT"
    ∧ fire_guard fn Examples.client1 [Examples.user1; Examples.admin1] Examples.user1
        (Examples.set_role "ADMIN" Examples.user1)
      = Return (Examples.set_role "ADMIN" Examples.user1)
    ∧ update_user fn Examples.client1 [Examples.user1; Examples.admin1] "client-1"
        (Examples.set_role "ADMIN")
      = Return [Examples.set_role "ADMIN" Examples.user1; Examples.admin1]
    ∧ update_user fn Examples.client1 [Examples.user1; Examples.admin1] "client-1"
        (Examples.set_counters 10 20 5)
      = Return [Examples.set_counters 10 20 5 Examples.user1; Examples.admin1].
Proof.
  eexists. eexists. split.
  { vm_compute. reflexivity. }
  split.
  { vm_compute. reflexivity. }
  by vm_compute.
Qed.

(** C10, on the code.  Same database.  The caller is signed in with an id
    that has no row in public.users, so that the role lookup gives NULL.
    Inside the body this caller is not taken for an ADMIN; but the
    function, run as [postgres], has returned NEW before the lookup, and
    the change of a sensitive column goes through. *)
Theorem unknown_caller_not_rejected :
  ∃ c fn,
    Catalog.run (Catalog.phase18 "postgres") Examples.fresh = Return c
    ∧ Catalog.functions c !! "enforce_safe_user_profile_update" = Some fn
    ∧ current_user Examples.stranger = "authenticated"
    ∧ select_role_into [Examples.user1; Examples.admin1] "ghost-9" = None
    ∧ fire_guard fn Examples.stranger [Examples.user1; Examples.admin1] Examples.user1
        (Examples.set_role "ADMIN" Examples.user1)
      = Return (Examples.set_role "ADMIN" Examples.user1)
    ∧ update_user fn Examples.stranger [Examples.user1; Examples.admin1] "client-1"
        (Examples.set_role "ADMIN")
      = Return [Examples.set_role "ADMIN" Examples.user1; Examples.admin1].
Proof.
  eexists. eexists. split.
  { vm_compute. reflexivity. }
  split.
  { vm_compute. reflexivity. }
  by vm_compute.
Qed.

(** The lookup itself is right: a caller without a row is no ADMIN for the
    body, which rejects the change when it runs as an end-user role. *)
Lemma unknown_caller_rejected_in_body cu caller users OLD NEW :
  cu ∈ ["authenticated"; "anon"] →
  select_role_into users caller = None →
  sensitive_column_changed OLD NEW = true →
  enforce_safe_user_profile_update cu (Some caller) users OLD NEW = Raise rejection.
Proof.
  intros Hcu Hnone Hchg. apply body_rejects_sensitive_change; [done| |done].
  by rewrite Hnone.
Qed.

(** A statement that raises writes nothing. *)
Lemma rejected_update_writes_nothing fn s users target set e :
  update_user fn s users target set = Raise e →
  table_after users (update_user fn s users target set) = users.
Proof. by intros ->. Qed.

End UserGuard.

(** ** Running the migrations, once and again *)

Section Migrations.

Import Catalog.

Implicit Types (c : catalog) (runner name : string).

Lemma log_migration_logged name c c' :
  log_migration name c = Return c' → name ∈ migration_log c'.
Proof.
  intros [= <-]. simpl. case_bool_decide; [done|].
  apply elem_of_app. right. apply list_elem_of_here.
Qed.

(** The log insert adds nothing when the name is there, and never makes a
    duplicate. *)
Lemma log_migration_again name c :
  name ∈ migration_log c → log_migration name c = Return c.
Proof.
  intros Hin. unfold log_migration. rewrite bool_decide_eq_true_2 by done.
  by destruct c.
Qed.

Lemma log_migration_NoDup name c c' :
  log_migration name c = Return c' →
  NoDup (migration_log c) → NoDup (migration_log c').
Proof.
  intros [= <-] Hnd. simpl. case_bool_decide as Hin; [done|].
  apply NoDup_app. split_and!; [done| |apply NoDup_singleton].
  intros x Hx ->%list_elem_of_singleton. done.
Qed.

Lemma analyse_policy_expr_columns c1 c2 e :
  orders_columns c1 = orders_columns c2 →
  analyse_policy_expr c1 e = analyse_policy_expr c2 e.
Proof.
  intros Hcols. unfold analyse_policy_expr, table_columns. by rewrite Hcols.
Qed.

Lemma create_policy_Return name p c c' :
  create_policy name p c = Return c'
  ↔ analyse_policy_expr c (polqual p) = Return ()
    ∧ analyse_policy_expr c (polwithcheck p) = Return ()
    ∧ orders_policies c !! name = None
    ∧ c' = with_orders_policies (<[name := p]> (orders_policies c)) c.
Proof.
  unfold create_policy.
  destruct (analyse_policy_expr c (polqual p)) as [[]|e1]; simpl;
    [|split; [done | by intros (? & _)]].
  destruct (analyse_policy_expr c (polwithcheck p)) as [[]|e2]; simpl;
    [|split; [done | by intros (_ & ? & _)]].
  destruct (orders_policies c !! name);
    [split; [done | by intros (_ & _ & ? & _)]|].
  split.
  - by intros [= <-].
  - by intros (_ & _ & _ & ->).
Qed.

(** DROP POLICY IF EXISTS then CREATE POLICY: when it succeeds once, it
    succeeds again on its own result, with the same result. *)
Lemma replace_policy_rerun name p c c' :
  run [drop_policy_if_exists name; create_policy name p] c = Return c' →
  run [drop_policy_if_exists name; create_policy name p] c' = Return c'.
Proof.
  destruct c as [cols pols trgs fns log].
  cbn [run drop_policy_if_exists mbind res_bind]. intros Hrun.
  destruct (create_policy name p _) as [c1|] eqn:E in Hrun; [|done].
  injection Hrun as <-.
  apply create_policy_Return in E as (Hq & Hw & _ & ->).
  unfold with_orders_policies in *; simpl in *.
  erewrite (proj2 (create_policy_Return _ _ _ _)); [reflexivity|].
  split_and!; simpl.
  - by rewrite <- Hq.
  - by rewrite <- Hw.
  - apply lookup_delete_eq.
  - unfold with_orders_policies. simpl.
    by rewrite delete_insert_eq, delete_delete_eq.
Qed.

(** Phase 21 applied a second time changes nothing and raises nothing. *)
Lemma phase21_rerun c c' :
  run phase21 c = Return c' → run phase21 c' = Return c'.
Proof.
  unfold phase21.
  set (name := "Clients can update own PO fields").
  set (p := {| polcmd := for_update; polqual := Some SqlExpr.update_using_owner;
               polwithcheck := Some SqlExpr.phase21_update_with_check |}).
  set (file := "20260221_phase21_fix_client_order_rls.sql").
  intros Hrun.
  assert (∃ c1, run [drop_policy_if_exists name; create_policy name p] c = Return c1
                ∧ log_migration file c1 = Return c') as (c1 & H1 & H2).
  { cbn [run mbind res_bind] in *.
    destruct (drop_policy_if_exists name c) as [c0|]; [simpl in *|done].
    destruct (create_policy name p c0) as [c1|]; [simpl in *|done].
    by exists c1. }
  pose proof (replace_policy_rerun _ _ _ _ H1) as H3.
  pose proof (log_migration_logged _ _ _ H2) as Hin.
  injection H2 as <-.
  cbn [run mbind res_bind] in *.
  destruct c1 as [cols pols trgs fns log].
  unfold drop_policy_if_exists, with_orders_policies, with_migration_log in *.
  simpl in *.
  destruct (create_policy name p {| orders_columns := cols;
                                    orders_policies := delete name pols;
                                    users_triggers := trgs;
                                    functions := fns;
                                    migration_log := log |}) as [c2|] eqn:E;
    [|done].
  apply create_policy_Return in E as (Hq & Hw & Hfree & ->).
  injection H3 as Hpols.
  erewrite (proj2 (create_policy_Return _ _ _ _)); [|split_and!; [..|reflexivity]].
  - simpl. unfold log_migration, with_orders_policies, with_migration_log. simpl.
    rewrite Hpols. by rewrite (bool_decide_eq_true_2 _ Hin).
  - by rewrite <- Hq.
  - by rewrite <- Hw.
  - done.
Qed.

(** CREATE POLICY of phase 20 for the UPDATE policy never succeeds. *)
Lemma phase20_create_update_policy_raises c :
  ∃ e, create_policy "Clients can update own PO fields"
         {| polcmd := for_update;
            polqual := Some SqlExpr.update_using_owner;
            polwithcheck := Some SqlExpr.phase20_update_with_check |} c = Raise e.
Proof.
  unfold create_policy. cbn [polqual polwithcheck].
  destruct (analyse_policy_expr c (Some SqlExpr.update_using_owner)) as [[]|e1]; [|by eauto].
  cbn [mbind res_bind]. unfold analyse_policy_expr.
  destruct (phase20_update_with_check_unresolved (table_columns c)
              (elements (dom (orders_columns c)))) as [e ->].
  by eauto.
Qed.

(** The triggers left by the DO block and the three DROP FUNCTION .. CASCADE. *)
Lemma cleaned_trigger (trgs : gmap string pg_trigger) i t :
  filter (λ kv, tgfoid kv.2 ≠ "check_user_profile_update")
    (filter (λ kv, tgfoid kv.2 ≠ "enforce_safe_profile_update")
       (filter (λ kv, tgfoid kv.2 ≠ "restrict_user_profile_update")
          (filter (λ kv, ¬ selected_by_do_block kv.1 kv.2) trgs))) !! i = Some t →
  ¬ selected_by_do_block i t
  ∧ tgfoid t ≠ "restrict_user_profile_update"
  ∧ tgfoid t ≠ "enforce_safe_profile_update"
  ∧ tgfoid t ≠ "check_user_profile_update".
Proof.
  rewrite !map_lookup_filter_Some. simpl. tauto.
Qed.

(** The trigger phase 18 creates is one the DO block selects: it is an
    UPDATE trigger, not internal, and not the one the block spares. *)
Lemma guard_trigger_selected :
  selected_by_do_block "trg_enforce_safe_user_profile_update"
    (before_update_row_trigger "enforce_safe_user_profile_update").
Proof. unfold selected_by_do_block. split_and!; done. Qed.

(** Run again, the DO block drops the trigger phase 18 created and the
    three CASCADEs find nothing more to drop. *)
Lemma cleaning_after_create (T : gmap string pg_trigger) :
  (∀ i t, T !! i = Some t →
     ¬ selected_by_do_block i t
     ∧ tgfoid t ≠ "restrict_user_profile_update"
     ∧ tgfoid t ≠ "enforce_safe_profile_update"
     ∧ tgfoid t ≠ "check_user_profile_update") →
  T !! "trg_enforce_safe_user_profile_update" = None →
  filter (λ kv, tgfoid kv.2 ≠ "check_user_profile_update")
    (filter (λ kv, tgfoid kv.2 ≠ "enforce_safe_profile_update")
       (filter (λ kv, tgfoid kv.2 ≠ "restrict_user_profile_update")
          (filter (λ kv, ¬ selected_by_do_block kv.1 kv.2)
             (<["trg_enforce_safe_user_profile_update" :=
                  before_update_row_trigger "enforce_safe_user_profile_update"]> T))))
  = T.
Proof.
  intros Hclean Hfree.
  apply map_eq. intros i. apply option_eq. intros t.
  rewrite !map_lookup_filter_Some. simpl.
  destruct (decide (i = "trg_enforce_safe_user_profile_update")) as [->|Hne].
  - rewrite lookup_insert_eq, Hfree. split; [|done].
    intros ((((Ht & Hns) & _) & _) & _). injection Ht as <-.
    destruct Hns. apply guard_trigger_selected.
  - rewrite lookup_insert_ne by done. split; [tauto|].
    intros Ht. destruct (Hclean i t Ht) as (? & ? & ? & ?). done.
Qed.

Lemma dropping_after_create (F : gmap string Users.pg_proc) v :
  F !! "restrict_user_profile_update" = None →
  F !! "enforce_safe_profile_update" = None →
  F !! "check_user_profile_update" = None →
  delete "check_user_profile_update"
    (delete "enforce_safe_profile_update"
       (delete "restrict_user_profile_update"
          (<["enforce_safe_user_profile_update" := v]> F)))
  = <["enforce_safe_user_profile_update" := v]> F.
Proof.
  intros H1 H2 H3.
  rewrite (delete_insert_ne F "restrict_user_profile_update") by done.
  rewrite (delete_id F) by done.
  rewrite (delete_insert_ne F "enforce_safe_profile_update") by done.
  rewrite (delete_id F) by done.
  rewrite (delete_insert_ne F "check_user_profile_update") by done.
  by rewrite (delete_id F).
Qed.

(** Phase 18 applied a second time changes nothing and raises nothing. *)
Lemma phase18_rerun runner c c' :
  run (phase18 runner) c = Return c' → run (phase18 runner) c' = Return c'.
Proof.
  destruct c as [cols pols trgs fns log].
  unfold phase18, run, drop_selected_triggers, drop_function_if_exists_cascade,
    create_or_replace_function, create_trigger_before_update, log_migration,
    with_users_triggers, with_functions, with_migration_log.
  cbn [mbind res_bind orders_columns orders_policies users_triggers functions migration_log].
  pose proof (cleaned_trigger trgs) as Hclean.
  set (T := filter _ (filter _ (filter _ (filter _ trgs)))) in *.
  set (F := delete "check_user_profile_update" (delete _ (delete _ fns))).
  assert (F !! "restrict_user_profile_update" = None) as HF1.
  { unfold F. rewrite !lookup_delete_ne by done. apply lookup_delete_eq. }
  assert (F !! "enforce_safe_profile_update" = None) as HF2.
  { unfold F. rewrite lookup_delete_ne by done. apply lookup_delete_eq. }
  assert (F !! "check_user_profile_update" = None) as HF3.
  { unfold F. apply lookup_delete_eq. }
  set (v := {| Users.proowner := _; Users.prosecdef := true |}).
  destruct (T !! "trg_enforce_safe_user_profile_update") eqn:HT; [done|].
  rewrite lookup_insert_eq. simpl. intros [= <-]. simpl.
  rewrite (cleaning_after_create T Hclean HT), HT.
  rewrite (dropping_after_create F v HF1 HF2 HF3).
  rewrite !lookup_insert_eq. simpl.
  rewrite insert_insert_eq.
  replace {| Users.proowner := Users.proowner v; Users.prosecdef := true |} with v
    by done.
  assert ("20260221_phase18_fix_user_profile_trigger.sql"
          ∈ (if bool_decide ("20260221_phase18_fix_user_profile_trigger.sql" ∈ log)
             then log
             else log ++ ["20260221_phase18_fix_user_profile_trigger.sql"])) as Hin.
  { case_bool_decide; [done|]. apply elem_of_app. right. apply list_elem_of_here. }
  by rewrite (bool_decide_eq_true_2 _ Hin).
Qed.

(** After phase 18, the guard is the SECURITY DEFINER function of the role
    that first created it: [runner], when the function was not there. *)
Lemma phase18_installs_guard_function runner c c' :
  run (phase18 runner) c = Return c' →
  functions c !! "enforce_safe_user_profile_update" = None →
  functions c' !! "enforce_safe_user_profile_update"
    = Some (Users.guard_function runner)
  ∧ users_triggers c' !! "trg_enforce_safe_user_profile_update"
    = Some (before_update_row_trigger "enforce_safe_user_profile_update").
Proof.
  destruct c as [cols pols trgs fns log].
  unfold phase18, run, drop_selected_triggers, drop_function_if_exists_cascade,
    create_or_replace_function, create_trigger_before_update, log_migration,
    with_users_triggers, with_functions, with_migration_log.
  cbn [mbind res_bind orders_columns orders_policies users_triggers functions migration_log].
  intros Hrun Hnew.
  rewrite !lookup_delete_ne, Hnew in Hrun by done.
  destruct (_ !! "trg_enforce_safe_user_profile_update"); [done|].
  rewrite lookup_insert_eq in Hrun. injection Hrun as <-. simpl.
  by rewrite !lookup_insert_eq.
Qed.

(** A script raises when one of its statements always does and the ones
    before it cannot fail. *)
Lemma run_raises (before after : list statement) (stmt : statement) :
  Forall (λ st : statement, ∀ c, ∃ c', st c = Return c') before →
  (∀ c, ∃ e, stmt c = Raise e) →
  ∀ c, ∃ e, run (before ++ stmt :: after) c = Raise e.
Proof.
  intros Hbefore Hstmt. induction Hbefore as [|st before Hst _ IH]; intros c; simpl.
  - destruct (Hstmt c) as [e ->]. by eauto.
  - destruct (Hst c) as [c' ->]. apply IH.
Qed.

(** Phase 20 raises on every database. *)
Lemma phase20_raises c : ∃ e, run phase20 c = Raise e.
Proof.
  revert c.
  change phase20 with
    ([ add_column_if_not_exists "not_test_order_confirmed_at" "TIMESTAMPTZ" "NULL";
       add_column_if_not_exists "payment_terms_confirmed_at" "TIMESTAMPTZ" "NULL";
       add_column_if_not_exists "client_po_confirmation_submitted_at" "TIMESTAMPTZ" "NULL";
       add_column_if_not_exists "client_po_uploaded" "BOOLEAN" "FALSE";
       drop_policy_if_exists "Clients can update own PO fields" ]
     ++ create_policy "Clients can update own PO fields"
          {| polcmd := for_update;
             polqual := Some SqlExpr.update_using_owner;
             polwithcheck := Some SqlExpr.phase20_update_with_check |}
        :: [ drop_policy_if_exists "Clients can create own orders";
             create_policy "Clients can create own orders"
               {| polcmd := for_insert;
                  polqual := None;
                  polwithcheck := Some SqlExpr.phase20_insert_with_check |};
             log_migration "20260221_phase20_po_submission_columns_and_rls.sql" ]).
  apply run_raises; [|apply phase20_create_update_policy_raises].
  repeat constructor; intros c; eexists; reflexivity.
Qed.

(** Each migration that has been applied can be applied again: the second
    run raises nothing and leaves the database, log included, as the first
    run left it.  For phase 20 the premise is never met. *)
Lemma applied_migration_rerun runner script c c' :
  script ∈ migrations runner →
  run script c = Return c' →
  run script c' = Return c'.
Proof.
  unfold migrations. intros Hin Hrun.
  apply elem_of_cons in Hin as [-> | Hin]; [by apply phase18_rerun with c|].
  apply elem_of_cons in Hin as [-> | Hin].
  - destruct (phase20_raises c) as [e He]. rewrite He in Hrun. discriminate Hrun.
  - apply list_elem_of_singleton in Hin as ->. by apply phase21_rerun with c.
Qed.

(** C9, on the code.  Phase 20 raises on every database, the first time
    and every time after: its CREATE POLICY refers to [OLD], which no
    policy expression can name.  On the database left by phases 18 and 21
    the error is the missing FROM-clause entry for [old].  (Phases 18 and
    21 do run twice without error and without a change, see
    [phase18_rerun] and [phase21_rerun].) *)
Theorem phase20_raises_on_every_run :
  (∀ c, ∃ e, run phase20 c = Raise e)
  ∧ ∃ c, (c18 ← run (phase18 "postgres") Examples.fresh; run phase21 c18) = Return c
         ∧ run phase20 c = Raise (undefined_table "old").
Proof.
  split; [apply phase20_raises|].
  eexists. split.
  - vm_compute. reflexivity.
  - vm_compute. reflexivity.
Qed.

End Migrations.

(** ** The confirmation workflow of DualPOFlow *)

Section Workflow.

Import DualPOFlow.

Implicit Types (env : Env) (st : State) (o : Orders.row).

(** On a well-formed timestamp, JavaScript truth is being non-null. *)
Lemma truthy_well_formed (v : option string) :
  v ≠ Some "" → truthy v = bool_decide (v ≠ None).
Proof. by destruct v as [[|a v]|]. Qed.

(** C7. Mounting the component for an order row [o] of the store.  When
    [client_po_confirmation_submitted_at] is non-null, or both
    [not_test_order_confirmed_at] and [payment_terms_confirmed_at] are (the
    values being those of TIMESTAMPTZ columns: ISO strings, never the empty
    string), the component is in step [pending] (Submitted) with nothing
    ticked and nothing being submitted: the panel of the pending step is
    rendered, the checkboxes and the Submit button are not, and no submit
    has been made.  Otherwise it is in step [confirmation] (Unconfirmed),
    with the confirmation panel rendered. *)
Theorem load_resumes_submitted (orders : list Orders.row) (orderId : string) o :
  currentOrder orders orderId = Some o →
  (Orders.timestamps_well_formed o →
   Orders.client_po_confirmation_submitted_at o ≠ None
   ∨ (Orders.not_test_order_confirmed_at o ≠ None
      ∧ Orders.payment_terms_confirmed_at o ≠ None) →
   load orders orderId
   = {| step := pending;
        submitting := false;
        isNotTestOrderConfirmed := false;
        isPaymentTermsConfirmed := false |}
   ∧ DualPOFlowView.pending_panel (load orders orderId) = true
   ∧ DualPOFlowView.confirmation_panel (load orders orderId) = false)
  ∧ (¬ (Orders.client_po_confirmation_submitted_at o ≠ None
        ∨ (Orders.not_test_order_confirmed_at o ≠ None
           ∧ Orders.payment_terms_confirmed_at o ≠ None)) →
     load orders orderId
     = {| step := confirmation;
          submitting := false;
          isNotTestOrderConfirmed := false;
          isPaymentTermsConfirmed := false |}
     ∧ DualPOFlowView.pending_panel (load orders orderId) = false
     ∧ DualPOFlowView.confirmation_panel (load orders orderId) = true).
Proof.
  intros Hfind. unfold load, restoreEffect. rewrite Hfind.
  unfold Boolean, js_or, js_and. split.
  - intros (Hnt & Hpt & Hsub) Hcond.
    destruct (Orders.client_po_confirmation_submitted_at o) as [[|a1 s1]|],
      (Orders.not_test_order_confirmed_at o) as [[|a2 s2]|],
      (Orders.payment_terms_confirmed_at o) as [[|a3 s3]|];
      try done; destruct Hcond as [H|[H1 H2]]; done.
  - intros Hcond.
    destruct (Orders.client_po_confirmation_submitted_at o) as [s1|];
      [exfalso; apply Hcond; by left|].
    destruct (Orders.not_test_order_confirmed_at o) as [s2|],
      (Orders.payment_terms_confirmed_at o) as [s3|];
      try (exfalso; apply Hcond; by right); simpl; try done.
    by destruct s2.
Qed.

(** [order1] once its confirmation has been stored resumes in [pending];
    [order1] as it is stays in [confirmation]. *)
Lemma load_resumes_submitted_witness :
  step (load [Examples.order2;
              Examples.set_confirmation "2026-02-21T10:15:00.000Z" Examples.order1]
          "order-1") = pending
  ∧ step (load [Examples.order2; Examples.order1] "order-1") = confirmation.
Proof.
  destruct (load_resumes_submitted
              [Examples.order2;
               Examples.set_confirmation "2026-02-21T10:15:00.000Z" Examples.order1]
              "order-1"
              (Examples.set_confirmation "2026-02-21T10:15:00.000Z" Examples.order1))
    as [Hresumed _]; [reflexivity|].
  destruct (load_resumes_submitted [Examples.order2; Examples.order1] "order-1"
              Examples.order1) as [_ Hfresh]; [reflexivity|].
  split.
  - destruct Hresumed as (-> & _).
    + by vm_compute.
    + left. by vm_compute.
    + reflexivity.
  - destruct Hfresh as (-> & _).
    + vm_compute. intros [H|[H _]]; by apply H.
    + reflexivity.
Defined.

(** C6. In step [confirmation] with both boxes ticked and a user signed
    in, a submit whose writes all succeed calls
    [submitClientPOConfirmation] and [updateOrder] with the three
    timestamps equal to the one clock reading [now env], [updateOrder] with
    status PENDING_ADMIN_CONFIRMATION, adds one notification, and ends in
    step [pending]; with a box not ticked a submit makes no call at all and
    leaves the state as it is. *)
Theorem submit_writes_once env (orderId : string) st :
  (is_Some (currentUser env) →
   step st = confirmation →
   isNotTestOrderConfirmed st = true →
   isPaymentTermsConfirmed st = true →
   (∀ c, is_write c = true → failure env c = None) →
   ∃ w,
     submit env orderId st = (Normal (), w)
     ∧ calls w =
         [ submitClientPOConfirmation orderId
             {| notTestOrderConfirmedAt := now env;
                paymentTermsConfirmedAt := now env;
                submittedAt := now env |};
           updateOrder orderId
             {| status := PENDING_ADMIN_CONFIRMATION;
                not_test_order_confirmed_at := now env;
                payment_terms_confirmed_at := now env;
                client_po_confirmation_submitted_at := now env |};
           addNotification
             {| type := "order";
                title := t env "notifications.poSubmittedTitle";
                message := t env "notifications.poSubmittedMessage";
                actionUrl := "/app?tab=orders" |};
           toast_success (t env "client.po.confirmationSubmitted") ]
     ∧ length (filter (λ c, is_notification c = true) (calls w)) = 1%nat
     ∧ state w = setSubmitting false (setStep pending st))
  ∧ (isNotTestOrderConfirmed st = false ∨ isPaymentTermsConfirmed st = false →
     submit env orderId st = (Normal (), {| state := st; calls := [] |})).
Proof.
  split.
  - intros [user Huser] Hstep Hnt Hpt Hok.
    unfold submit, handleSubmitForConfirmation.
    rewrite Huser, Hnt, Hpt. simpl.
    unfold mbind, M_bind, try_finally, try_catch, write, tell, set. simpl.
    rewrite !Hok by done. simpl.
    eexists. split; [reflexivity|]. simpl. by split_and!.
  - intros Hbox. unfold submit, handleSubmitForConfirmation.
    destruct (negb (bool_decide (is_Some (currentUser env)))); [done|].
    by destruct Hbox as [-> | ->]; simpl; rewrite ?orb_true_r.
Qed.

(** [client-1] submits [order-1] with both boxes ticked; then with the
    second box cleared. *)
Lemma submit_writes_once_witness :
  (∃ w, submit Examples.online "order-1" Examples.ticked = (Normal (), w)
        ∧ length (filter (λ c, is_notification c = true) (calls w)) = 1%nat
        ∧ step (state w) = pending)
  ∧ submit Examples.online "order-1" initial
    = (Normal (), {| state := initial; calls := [] |}).
Proof.
  destruct (submit_writes_once Examples.online "order-1" Examples.ticked) as [Hsubmit _].
  destruct (submit_writes_once Examples.online "order-1" initial) as [_ Hidle].
  split.
  - destruct Hsubmit as (w & Hw & _ & Hone & Hstate); try reflexivity.
    + by eexists.
    + exists w. rewrite Hstate. by split_and!.
  - apply Hidle. by left.
Defined.

(** A call is not in an explicit list of other calls. *)
Ltac absent Hin :=
  repeat (apply elem_of_cons in Hin as [Hin|Hin]; [done|]);
  by apply elem_of_nil in Hin.

(** The run in which a write threw: the handler is through, the error toast
    is among the calls and no success toast is. *)
Ltac caught_failure :=
  intros [= <- <-] _; simpl; split_and!; try done;
  [ repeat first [apply list_elem_of_here | apply list_elem_of_further]
  | let Hin := fresh "Hin" in intros msg Hin; absent Hin ].

(** C8. When a write the submit made failed, the handler has caught the
    error (it completes normally), has logged it and shown the error
    toast and no success toast, and has left the step and the two boxes as
    they were, with [submitting] off again: the user is still in the step
    where the submit can be made. *)
Theorem submit_failure_keeps_state env (orderId : string) st r w :
  submit env orderId st = (r, w) →
  (∃ c, c ∈ calls w ∧ is_write c = true ∧ is_Some (failure env c)) →
  r = Normal ()
  ∧ step (state w) = step st
  ∧ isNotTestOrderConfirmed (state w) = isNotTestOrderConfirmed st
  ∧ isPaymentTermsConfirmed (state w) = isPaymentTermsConfirmed st
  ∧ submitting (state w) = false
  ∧ toast_error (t env "client.po.confirmationSubmitError") ∈ calls w
  ∧ (∀ msg, toast_success msg ∉ calls w).
Proof.
  unfold submit, handleSubmitForConfirmation.
  destruct (negb (bool_decide (is_Some (currentUser env)))).
  { intros [= <- <-] (c & Hc & _). by apply elem_of_nil in Hc. }
  destruct (negb (isNotTestOrderConfirmed st) || negb (isPaymentTermsConfirmed st)).
  { intros [= <- <-] (c & Hc & _). by apply elem_of_nil in Hc. }
  unfold mbind, M_bind, try_finally, try_catch, write, tell, set. simpl.
  destruct (failure env (submitClientPOConfirmation _ _)) as [e1|] eqn:E1; simpl;
    [caught_failure|].
  destruct (failure env (updateOrder _ _)) as [e2|] eqn:E2; simpl;
    [caught_failure|].
  destruct (failure env (addNotification _)) as [e3|] eqn:E3; simpl;
    [caught_failure|].
  intros [= <- <-] (c & Hc & Hw & Hfail). simpl in Hc. exfalso.
  repeat (apply elem_of_cons in Hc as [-> | Hc];
          [first [ rewrite E1 in Hfail | rewrite E2 in Hfail
                 | rewrite E3 in Hfail | discriminate Hw ];
           by destruct Hfail|]).
  by apply elem_of_nil in Hc.
Qed.

(** The store is unreachable when [client-1] submits: [updateOrder]
    rejects, the component stays in [confirmation] and shows the error. *)
Lemma submit_failure_keeps_state_witness :
  ∃ w, submit Examples.offline "order-1" Examples.ticked = (Normal (), w)
       ∧ step (state w) = confirmation
       ∧ submitting (state w) = false
       ∧ toast_error "client.po.confirmationSubmitError" ∈ calls w.
Proof.
  destruct (submit Examples.offline "order-1" Examples.ticked) as [r w] eqn:Hrun.
  destruct (submit_failure_keeps_state Examples.offline "order-1" Examples.ticked r w Hrun)
    as (-> & Hstep & _ & _ & Hsub & Herr & _).
  - vm_compute in Hrun. injection Hrun as _ <-.
    exists (updateOrder "order-1"
              {| status := PENDING_ADMIN_CONFIRMATION;
                 not_test_order_confirmed_at := "2026-02-21T10:15:00.000Z";
                 payment_terms_confirmed_at := "2026-02-21T10:15:00.000Z";
                 client_po_confirmation_submitted_at := "2026-02-21T10:15:00.000Z" |}).
    split_and!.
    + apply list_elem_of_further. apply list_elem_of_here.
    + reflexivity.
    + by eexists.
  - exists w. by split_and!.
Defined.

End Workflow.

(** * Further properties *)

(** ** UPDATE and INSERT statements under the two policies *)

Section OrderStatements.

Import Orders.

Implicit Types (s : Session) (tbl rows : list row) (old new cur : row).

(** The rows an UPDATE has written: each is a target owned by the caller,
    it is the only row the subquery read, and its owner and status are what
    they were. *)
Lemma update_rows_written s tbl target set rows rows' :
  (∀ r, r ∈ rows → r ∈ tbl) →
  update_rows s tbl target set rows = Return rows' →
  Forall2 (λ r r',
             r' = r
             ∨ (r' = set r ∧ id r = target ∧ tbl = [r]
                ∧ auth_uid s = Some (client_id r)
                ∧ client_id r' = client_id r ∧ status r' = status r))
          rows rows'.
Proof.
  revert rows'. induction rows as [|r rows IH]; intros rows' Hsub; simpl.
  - intros [= <-]. constructor.
  - assert (∀ r0, r0 ∈ rows → r0 ∈ tbl) as Hsub'.
    { intros r0 Hr0. apply Hsub. by apply list_elem_of_further. }
    assert (r ∈ tbl) as Hr by (apply Hsub; apply list_elem_of_here).
    case_bool_decide as Hid.
    + destruct (check_update s tbl r (set r)) eqn:E; [| |done].
      * destruct (update_rows s tbl target set rows) as [rest|]; [|done].
        intros [= <-]. constructor; [|by apply IH].
        right. pose proof (check_update_allowed_using _ _ _ _ E) as Hu.
        apply check_update_allowed_with_check in E as (Hn & r0 & -> & Hs).
        apply list_elem_of_singleton in Hr as ->.
        split_and!; try done. congruence.
      * destruct (update_rows s tbl target set rows) as [rest|]; [|done].
        intros [= <-]. constructor; [by left | by apply IH].
    + destruct (update_rows s tbl target set rows) as [rest|]; [|done].
      intros [= <-]. constructor; [by left | by apply IH].
Qed.

(** X1. An UPDATE of public.orders that a session gets through the policy
    leaves the [status] and the [client_id] of every row as they were, and
    a row it has changed is a row of the caller and the only row the
    subquery of the policy read. *)
Theorem client_update_keeps_status_and_owner s tbl target set tbl' :
  update_order s tbl target set = Return tbl' →
  status <$> tbl' = status <$> tbl
  ∧ client_id <$> tbl' = client_id <$> tbl
  ∧ Forall2 (λ r r', r' = r ∨ (auth_uid s = Some (client_id r) ∧ tbl = [r])) tbl tbl'.
Proof.
  intros Hrun. apply update_rows_written in Hrun; [|done].
  split_and!.
  - induction Hrun as [|r r' l l' Hr _ IH]; [done|].
    rewrite !fmap_cons. f_equal; [|exact IH].
    by destruct Hr as [-> | (_ & _ & _ & _ & _ & ->)].
  - induction Hrun as [|r r' l l' Hr _ IH]; [done|].
    rewrite !fmap_cons. f_equal; [|exact IH].
    by destruct Hr as [-> | (_ & _ & _ & _ & -> & _)].
  - eapply Forall2_impl; [exact Hrun|]. simpl.
    intros r r' [-> | (_ & _ & ? & ? & _)]; [by left | by right].
Qed.

(** [client-1] confirms its only order. *)
Lemma client_update_keeps_status_and_owner_witness :
  status <$> [Examples.set_confirmation "2026-02-21T10:15:00.000Z" Examples.order1]
  = status <$> [Examples.order1].
Proof.
  apply (client_update_keeps_status_and_owner Examples.client1 [Examples.order1]
           "order-1" (Examples.set_confirmation "2026-02-21T10:15:00.000Z")).
  reflexivity.
Defined.

(** X3. Without an end-user session ([auth.uid()] is NULL) the two policies
    let nothing through: an INSERT raises, and an UPDATE finds no row to
    write and returns the table as it was. *)
Theorem anonymous_session_writes_nothing s tbl :
  auth_uid s = None →
  (∀ new, insert_order s tbl new = Raise rls_violation)
  ∧ (∀ target set, update_order s tbl target set = Return tbl).
Proof.
  intros Hnull. split.
  - intros new. unfold insert_order, check_insert, insert_with_check, sql_and.
    rewrite Hnull. simpl. by destruct (get_user_role s); simpl; [case_bool_decide|].
  - intros target set. unfold update_order. generalize tbl at 1 as tbl0.
    induction tbl as [|r rows IH]; intros tbl0; [done|]. simpl.
    rewrite IH. unfold check_update, update_using. rewrite Hnull. simpl.
    by case_bool_decide.
Qed.

Lemma anonymous_session_writes_nothing_witness :
  insert_order Scenarios.anonymous [Examples.order2] Examples.order1 = Raise rls_violation
  ∧ update_order Scenarios.anonymous [Examples.order1] "order-1"
      (Examples.set_confirmation "2026-02-21T10:15:00.000Z") = Return [Examples.order1].
Proof.
  split.
  - by apply (anonymous_session_writes_nothing Scenarios.anonymous [Examples.order2]).
  - by apply (anonymous_session_writes_nothing Scenarios.anonymous [Examples.order1]).
Defined.

(** X4. An INSERT by the owner of the new row under the role CLIENT is let
    through whatever the other columns of the row are ([status] and
    [amount] included), the row is added and the rows there are kept; any
    other INSERT raises and adds nothing. *)
Theorem insert_order_outcomes s tbl new :
  (auth_uid s = Some (client_id new) ∧ get_user_role s = Some "CLIENT" →
     insert_order s tbl new = Return (tbl ++ [new]))
  ∧ (¬ (auth_uid s = Some (client_id new) ∧ get_user_role s = Some "CLIENT") →
     insert_order s tbl new = Raise rls_violation).
Proof.
  unfold insert_order. split.
  - intros H. by rewrite (proj2 (check_insert_allowed s new) H).
  - intros H. destruct (check_insert s new) eqn:E.
    + by apply check_insert_allowed in E.
    + unfold check_insert in E.
      by destruct (insert_with_check s new) as [t|]; [destruct (is_true t)|].
    + unfold check_insert, insert_with_check, sql_and in E.
      destruct (sql_eq (auth_uid s) (Some (client_id new))) as [[]|],
        (sql_eq (get_user_role s) (Some "CLIENT")) as [[]|]; simpl in E; congruence.
Qed.

(** [client1] inserts an order already marked CONFIRMED; an administrator
    cannot insert an order for [client1]. *)
Lemma insert_order_outcomes_witness :
  insert_order Examples.client1 [Examples.order2]
    (Examples.set_status "CONFIRMED" Examples.order1)
  = Return [Examples.order2; Examples.set_status "CONFIRMED" Examples.order1]
  ∧ insert_order Scenarios.admin_session [Examples.order2] Examples.order1
    = Raise rls_violation.
Proof.
  split.
  - by apply (insert_order_outcomes Examples.client1 [Examples.order2]
                (Examples.set_status "CONFIRMED" Examples.order1)).
  - apply (insert_order_outcomes Scenarios.admin_session [Examples.order2] Examples.order1).
    vm_compute. intros [H _]. discriminate H.
Defined.

End OrderStatements.

(** ** The WITH CHECK expression of phase 21, evaluated *)

Section PolicyExpressionValue.

Import SqlExpr.

(** X5. Evaluated with SQL's name resolution for a caller who owns the
    proposed row, the WITH CHECK expression of phase 21 does not look for
    the row under check: it is NULL when the caller can read no order,
    compares the proposed status with the status of the one order the
    caller can read (whatever its id), and raises when the caller can read
    several.  For another caller it is FALSE without the subquery being
    run. *)
Theorem phase21_with_check_value (s : Session) (tbl : list Orders.row) (new : Orders.row) :
  (auth_uid s = Some (Orders.client_id new) →
     eval_cond s tbl [("orders", new)] phase21_update_with_check
     = match tbl with
       | [] => Return None
       | [r] => Return (Some (bool_decide (Orders.status new = Orders.status r)))
       | _ :: _ :: _ => Raise cardinality_violation
       end)
  ∧ (∀ caller, auth_uid s = Some caller → caller ≠ Orders.client_id new →
     eval_cond s tbl [("orders", new)] phase21_update_with_check = Return (Some false)).
Proof.
  rewrite eval_phase21_update_with_check.
  unfold Orders.update_with_check. rewrite current_status_subquery_eq.
  split.
  - intros ->. rewrite sql_eq_refl. simpl.
    destruct tbl as [|r [|r' tbl]]; simpl; try done.
    by case_bool_decide.
  - intros caller -> Hne. simpl. by rewrite bool_decide_eq_false_2.
Qed.

(** The proposed row is [order1], the only readable order is [order2]: the
    check passes on the status of [order2]. *)
Lemma phase21_with_check_value_witness :
  eval_cond Examples.client1 [Examples.order2] [("orders", Examples.order1)]
    phase21_update_with_check = Return (Some true)
  ∧ eval_cond Examples.client2 [Examples.order1; Examples.order2]
      [("orders", Examples.order1)] phase21_update_with_check = Return (Some false).
Proof.
  destruct (phase21_with_check_value Examples.client1 [Examples.order2] Examples.order1)
    as [Howner _].
  destruct (phase21_with_check_value Examples.client2 [Examples.order1; Examples.order2]
              Examples.order1) as [_ Hother].
  split.
  - by apply Howner.
  - apply (Hother "client-2"); [reflexivity|]. vm_compute. discriminate.
Defined.

End PolicyExpressionValue.

(** ** UPDATE statements on public.users *)

Section UserStatements.

Import Users.

Implicit Types (s : Session) (users rows : list row) (OLD NEW : row) (fn : pg_proc).

(** SET applied to the targets of a statement. *)
Lemma update_rows_passing fn s users target set rows :
  (∀ r, r ∈ rows → id r = target → fire_guard fn s users r (set r) = Return (set r)) →
  update_rows fn s users target set rows
  = Return ((λ r, if bool_decide (id r = target) then set r else r) <$> rows).
Proof.
  induction rows as [|r rows IH]; intros Hpass; [done|]. simpl.
  rewrite IH by (intros r0 Hr0; apply Hpass; by apply list_elem_of_further).
  case_bool_decide; [|done].
  by rewrite Hpass by (done || apply list_elem_of_here).
Qed.

(** The body returns NEW as it is, or raises the one exception it has. *)
Lemma guard_returns_new_or_rejects cu uid users OLD NEW :
  enforce_safe_user_profile_update cu uid users OLD NEW = Return NEW
  ∨ (enforce_safe_user_profile_update cu uid users OLD NEW = Raise rejection
     ∧ cu ∈ ["authenticated"; "anon"]
     ∧ (∃ caller, uid = Some caller ∧ select_role_into users caller ≠ Some "ADMIN")
     ∧ sensitive_column_changed OLD NEW = true).
Proof.
  unfold enforce_safe_user_profile_update.
  case_bool_decide as Hcu; simpl; [|by left].
  destruct uid as [caller|]; [|by left].
  destruct (is_true (sql_eq (select_role_into users caller) (Some "ADMIN"))) eqn:E;
    [by left|].
  destruct (sensitive_column_changed OLD NEW); [|by left].
  right. split_and!; try done. exists caller. split; [done|].
  intros Hadmin. by rewrite Hadmin, sql_eq_refl in E.
Qed.

(** X6. The guard as phase 18 creates it, the migration having been run by
    a role other than [authenticated] and [anon], rejects no UPDATE of
    public.users: whatever the session and the SET list, the statement
    succeeds and writes the SET list to the targeted rows. *)
Theorem guard_of_phase18_rejects_nothing runner s users target (set : row → row) :
  runner ∉ ["authenticated"; "anon"] →
  update_user (guard_function runner) s users target set
  = Return ((λ r, if bool_decide (id r = target) then set r else r) <$> users).
Proof.
  intros Hrunner. apply update_rows_passing. intros r _ _.
  by apply guard_function_lets_everything_through.
Qed.

Lemma guard_of_phase18_rejects_nothing_witness :
  update_user (guard_function "postgres") Examples.stranger
    [Examples.user1; Examples.admin1] "admin-1" (Examples.set_role "CLIENT")
  = Return [Examples.user1; Examples.set_role "CLIENT" Examples.admin1].
Proof.
  apply (guard_of_phase18_rejects_nothing "postgres" Examples.stranger
           [Examples.user1; Examples.admin1] "admin-1" (Examples.set_role "CLIENT")).
  apply (bool_decide_unpack _). vm_compute. exact I.
Defined.

(** The role lookup finds the caller's row when ids are unique. *)
Lemma select_role_into_row users r :
  r ∈ users → NoDup (id <$> users) → select_role_into users (id r) = role r.
Proof.
  unfold select_role_into.
  induction users as [|u users IH]; intros Hin Hnd; [by apply elem_of_nil in Hin|].
  rewrite fmap_cons in Hnd. apply NoDup_cons in Hnd as [Hu Hnd].
  apply elem_of_cons in Hin as [-> | Hin].
  - by rewrite filter_cons_True.
  - rewrite filter_cons_False; [by apply IH|].
    intros Heq. apply Hu. rewrite Heq. by apply list_elem_of_fmap_2.
Qed.

(** X7. A caller whose row in public.users (ids being unique) has the role
    ADMIN passes the body whatever it runs as and whatever the update
    changes, on its own row or on another user's. *)
Theorem admin_passes_guard cu users admin OLD NEW :
  admin ∈ users →
  NoDup (id <$> users) →
  role admin = Some "ADMIN" →
  enforce_safe_user_profile_update cu (Some (id admin)) users OLD NEW = Return NEW.
Proof.
  intros Hin Hnd Hrole. unfold enforce_safe_user_profile_update.
  rewrite (select_role_into_row users admin Hin Hnd), Hrole, sql_eq_refl. simpl.
  by destruct (negb _).
Qed.

(** [admin-1] makes [client-1] an admin. *)
Lemma admin_passes_guard_witness :
  enforce_safe_user_profile_update "authenticated" (Some "admin-1")
    [Examples.user1; Examples.admin1] Examples.user1
    (Examples.set_role "ADMIN" Examples.user1)
  = Return (Examples.set_role "ADMIN" Examples.user1).
Proof.
  apply (admin_passes_guard "authenticated" [Examples.user1; Examples.admin1]
           Examples.admin1).
  - apply list_elem_of_further, list_elem_of_here.
  - vm_compute. repeat constructor; intros H; inversion H as [|? ? ? H']; inversion H'.
  - reflexivity.
Defined.

Lemma update_rows_outcomes fn s users target (set : row → row) rows :
  (∀ rows', update_rows fn s users target set rows = Return rows' →
     rows' = (λ r, if bool_decide (id r = target) then set r else r) <$> rows)
  ∧ (∀ e, update_rows fn s users target set rows = Raise e →
     e = rejection
     ∧ executing_user fn s ∈ ["authenticated"; "anon"]
     ∧ (∃ caller, auth_uid s = Some caller
                  ∧ select_role_into users caller ≠ Some "ADMIN")
     ∧ ∃ r, r ∈ rows ∧ id r = target ∧ sensitive_column_changed r (set r) = true).
Proof.
  induction rows as [|r rows [IHok IHerr]]; split.
  - by intros rows' [= <-].
  - done.
  - intros rows'. simpl. case_bool_decide as Hid.
    + unfold fire_guard.
      destruct (guard_returns_new_or_rejects (executing_user fn s) (auth_uid s)
                  users r (set r)) as [-> | [-> _]]; [|done]. simpl.
      destruct (update_rows fn s users target set rows) as [rest|]; [|done].
      intros [= <-]. by rewrite (IHok rest).
    + destruct (update_rows fn s users target set rows) as [rest|]; [|done].
      intros [= <-]. by rewrite (IHok rest).
  - intros e. simpl. case_bool_decide as Hid.
    + unfold fire_guard.
      destruct (guard_returns_new_or_rejects (executing_user fn s) (auth_uid s)
                  users r (set r)) as [-> | (-> & Hcu & Hcaller & Hchg)]; simpl.
      * destruct (update_rows fn s users target set rows) as [rest|e0] eqn:E; [done|].
        intros [= <-]. destruct (IHerr e0 eq_refl) as (? & ? & ? & r0 & ? & ? & ?).
        split_and!; try done. exists r0. split_and!; try done.
        by apply list_elem_of_further.
      * intros [= <-]. split_and!; try done. exists r.
        split_and!; try done. apply list_elem_of_here.
    + destruct (update_rows fn s users target set rows) as [rest|e0] eqn:E; [done|].
      intros [= <-]. destruct (IHerr e0 eq_refl) as (? & ? & ? & r0 & ? & ? & ?).
      split_and!; try done. exists r0. split_and!; try done.
      by apply list_elem_of_further.
Qed.

(** X8. An UPDATE of public.users under the trigger either succeeds and
    has written exactly the SET list to the rows with the target id, the
    other rows being as they were; or raises, and then the exception is
    'Only safe profile fields can be updated by users', the body ran as
    [authenticated] or [anon] for a signed-in caller whose role is not
    ADMIN, and the SET list changes a sensitive column of a targeted row. *)
Theorem update_user_outcomes fn s users target (set : row → row) :
  (∀ users', update_user fn s users target set = Return users' →
     users' = (λ r, if bool_decide (id r = target) then set r else r) <$> users)
  ∧ (∀ e, update_user fn s users target set = Raise e →
     e = rejection
     ∧ executing_user fn s ∈ ["authenticated"; "anon"]
     ∧ (∃ caller, auth_uid s = Some caller
                  ∧ select_role_into users caller ≠ Some "ADMIN")
     ∧ ∃ r, r ∈ users ∧ id r = target ∧ sensitive_column_changed r (set r) = true).
Proof. apply update_rows_outcomes. Qed.

(** Under a trigger function that runs as the caller, [client-1] asking
    for the ADMIN role is rejected; its counters are written. *)
Lemma update_user_outcomes_witness :
  [Examples.set_counters 1 2 3 Examples.user1; Examples.admin1]
  = (λ r, if bool_decide (id r = "client-1") then Examples.set_counters 1 2 3 r else r)
      <$> [Examples.user1; Examples.admin1]
  ∧ ∃ r, r ∈ [Examples.user1; Examples.admin1]
         ∧ id r = "client-1"
         ∧ sensitive_column_changed r (Examples.set_role "ADMIN" r) = true.
Proof.
  destruct (update_user_outcomes (Scenarios.function_of "postgres") Examples.client1
              [Examples.user1; Examples.admin1] "client-1" (Examples.set_counters 1 2 3))
    as [Hok _].
  destruct (update_user_outcomes (Scenarios.function_of "postgres") Examples.client1
              [Examples.user1; Examples.admin1] "client-1" (Examples.set_role "ADMIN"))
    as [_ Herr].
  split.
  - apply Hok. reflexivity.
  - destruct (Herr rejection) as (_ & _ & _ & r & Hr & Hid & Hchg); [reflexivity|].
    by exists r.
Defined.

(** X9. A SET list that changes none of the seven sensitive columns of the
    rows it targets is written for every caller and every owner of the
    function: [credit_used], [current_balance] and [rating] can be set by
    any session the other rules of the database let reach the row. *)
Theorem safe_set_list_is_written fn s users target (set : row → row) :
  (∀ r, r ∈ users → id r = target → sensitive_column_changed r (set r) = false) →
  update_user fn s users target set
  = Return ((λ r, if bool_decide (id r = target) then set r else r) <$> users).
Proof.
  intros Hsafe. apply update_rows_passing. intros r Hr Hid.
  apply safe_columns_pass. by apply Hsafe.
Qed.

(** A stranger sets the counters of [client-1]. *)
Lemma safe_set_list_is_written_witness :
  update_user (Scenarios.function_of "postgres") Examples.stranger
    [Examples.user1; Examples.admin1] "client-1" (Examples.set_counters 0 999 5)
  = Return [Examples.set_counters 0 999 5 Examples.user1; Examples.admin1].
Proof.
  apply (safe_set_list_is_written (Scenarios.function_of "postgres") Examples.stranger
           [Examples.user1; Examples.admin1] "client-1" (Examples.set_counters 0 999 5)).
  intros r Hr Hid. apply elem_of_cons in Hr as [-> | Hr]; [reflexivity|].
  apply list_elem_of_singleton in Hr as ->. discriminate Hid.
Defined.

End UserStatements.

(** ** What the migrations leave behind *)

Section MigrationResults.

Import Catalog.

Implicit Types (c : catalog) (runner name : string).

(** A column reference and the columns of the catalog. *)
Lemma column_listed c name :
  name ∈ elements (dom (orders_columns c)) ↔ is_Some (orders_columns c !! name).
Proof. by rewrite elem_of_elements, elem_of_dom. Qed.

Lemma resolve_unqualified_outer c name :
  SqlExpr.resolve_col None name [("orders", elements (dom (orders_columns c)))]
  = if bool_decide (is_Some (orders_columns c !! name)) then Return 0%nat
    else Raise (undefined_column name).
Proof.
  simpl. case_bool_decide as Hin; rewrite column_listed in Hin.
  - by rewrite bool_decide_eq_true_2.
  - by rewrite bool_decide_eq_false_2.
Qed.

(** The analysis of the two expressions of the phase 21 policy. *)
Lemma analyse_phase21_policy c :
  (_ ← analyse_policy_expr c (Some SqlExpr.update_using_owner);
   analyse_policy_expr c (Some SqlExpr.phase21_update_with_check))
  = if bool_decide (is_Some (orders_columns c !! "client_id")) then
      if bool_decide (is_Some (orders_columns c !! "status")) then
        if bool_decide (is_Some (orders_columns c !! "id")) then Return ()
        else Raise (undefined_column "id")
      else Raise (undefined_column "status")
    else Raise (undefined_column "client_id").
Proof.
  unfold analyse_policy_expr, table_columns. simpl.
  rewrite !(bool_decide_ext _ _ (column_listed c _)).
  by destruct (bool_decide (is_Some (orders_columns c !! "client_id"))),
    (bool_decide (is_Some (orders_columns c !! "status"))),
    (bool_decide (is_Some (orders_columns c !! "id"))).
Qed.

(** Phase 21 in closed form. *)
Lemma phase21_run c :
  run phase21 c
  = if bool_decide (is_Some (orders_columns c !! "client_id")) then
      if bool_decide (is_Some (orders_columns c !! "status")) then
        if bool_decide (is_Some (orders_columns c !! "id")) then
          Return
            {| orders_columns := orders_columns c;
               orders_policies :=
                 <["Clients can update own PO fields" :=
                     {| polcmd := for_update;
                        polqual := Some SqlExpr.update_using_owner;
                        polwithcheck := Some SqlExpr.phase21_update_with_check |}]>
                   (orders_policies c);
               users_triggers := users_triggers c;
               functions := functions c;
               migration_log :=
                 if bool_decide ("20260221_phase21_fix_client_order_rls.sql"
                                 ∈ migration_log c)
                 then migration_log c
                 else migration_log c ++ ["20260221_phase21_fix_client_order_rls.sql"] |}
        else Raise (undefined_column "id")
      else Raise (undefined_column "status")
    else Raise (undefined_column "client_id").
Proof.
  pose proof (analyse_phase21_policy c) as Han.
  destruct c as [cols pols trgs fns log].
  unfold phase21, run, drop_policy_if_exists, create_policy, log_migration,
    with_orders_policies, with_migration_log.
  cbn [mbind res_bind orders_columns orders_policies users_triggers functions
       migration_log polqual polwithcheck].
  rewrite (analyse_policy_expr_columns _
             {| orders_columns := cols; orders_policies := pols; users_triggers := trgs;
                functions := fns; migration_log := log |}
             (Some SqlExpr.update_using_owner)) by done.
  rewrite (analyse_policy_expr_columns _
             {| orders_columns := cols; orders_policies := pols; users_triggers := trgs;
                functions := fns; migration_log := log |}
             (Some SqlExpr.phase21_update_with_check)) by done.
  rewrite lookup_delete_eq, insert_delete_eq.
  cbn [orders_columns] in Han.
  destruct (analyse_policy_expr _ (Some SqlExpr.update_using_owner)) as [[]|e1];
    cbn [mbind res_bind] in *.
  - destruct (analyse_policy_expr _ (Some SqlExpr.phase21_update_with_check))
      as [[]|e2]; cbn [mbind res_bind] in *.
    + repeat case_bool_decide; done.
    + repeat case_bool_decide; congruence.
  - repeat case_bool_decide; congruence.
Qed.




(** Phase 18 in closed form. *)
Lemma phase18_run runner c :
  run (phase18 runner) c
  = let T :=
      filter (λ kv, tgfoid kv.2 ≠ "check_user_profile_update")
        (filter (λ kv, tgfoid kv.2 ≠ "enforce_safe_profile_update")
           (filter (λ kv, tgfoid kv.2 ≠ "restrict_user_profile_update")
              (filter (λ kv, ¬ selected_by_do_block kv.1 kv.2) (users_triggers c)))) in
    let F :=
      delete "check_user_profile_update"
        (delete "enforce_safe_profile_update"
           (delete "restrict_user_profile_update" (functions c))) in
    match T !! "trg_enforce_safe_user_profile_update" with
    | Some _ => Raise (duplicate_object "trg_enforce_safe_user_profile_update")
    | None =>
        Return
          {| orders_columns := orders_columns c;
             orders_policies := orders_policies c;
             users_triggers :=
               <["trg_enforce_safe_user_profile_update" :=
                   before_update_row_trigger "enforce_safe_user_profile_update"]> T;
             functions :=
               <["enforce_safe_user_profile_update" :=
                   {| Users.proowner :=
                        match functions c !! "enforce_safe_user_profile_update" with
                        | Some f => Users.proowner f
                        | None => runner
                        end;
                      Users.prosecdef := true |}]> F;
             migration_log :=
               if bool_decide ("20260221_phase18_fix_user_profile_trigger.sql"
                               ∈ migration_log c)
               then migration_log c
               else migration_log c ++ ["20260221_phase18_fix_user_profile_trigger.sql"] |}
    end.
Proof.
  destruct c as [cols pols trgs fns log].
  unfold phase18, run, drop_selected_triggers, drop_function_if_exists_cascade,
    create_or_replace_function, create_trigger_before_update, log_migration,
    with_users_triggers, with_functions, with_migration_log.
  cbn [mbind res_bind orders_columns orders_policies users_triggers functions migration_log].
  cbv zeta.
  rewrite !(lookup_delete_ne _ _ "enforce_safe_user_profile_update") by done.
  destruct (_ !! "trg_enforce_safe_user_profile_update"); [done|].
  by rewrite lookup_insert_eq.
Qed.

(** The triggers the first four statements of phase 18 leave. *)
Lemma spared_trigger (trgs : gmap string pg_trigger) n t :
  filter (λ kv, tgfoid kv.2 ≠ "check_user_profile_update")
    (filter (λ kv, tgfoid kv.2 ≠ "enforce_safe_profile_update")
       (filter (λ kv, tgfoid kv.2 ≠ "restrict_user_profile_update")
          (filter (λ kv, ¬ selected_by_do_block kv.1 kv.2) trgs))) !! n = Some t
  ↔ trgs !! n = Some t
    ∧ ¬ selected_by_do_block n t
    ∧ tgfoid t ∉ ["restrict_user_profile_update"; "enforce_safe_profile_update";
                  "check_user_profile_update"].
Proof.
  rewrite !map_lookup_filter_Some, !not_elem_of_cons. simpl.
  pose proof (not_elem_of_nil (tgfoid t)). tauto.
Qed.

(** X11. When phase 18 has run: the trigger
    [trg_enforce_safe_user_profile_update] is a BEFORE UPDATE row trigger
    on the guard function; of the triggers that were on public.users, those
    are left that the DO block does not select and that do not execute one
    of the three dropped functions; the guard function is SECURITY DEFINER,
    owned by the role that ran the migration unless it existed already;
    the three old functions are gone and the other functions are as they
    were; public.orders is untouched. *)
Theorem phase18_postcondition runner c c' :
  run (phase18 runner) c = Return c' →
  users_triggers c' !! "trg_enforce_safe_user_profile_update"
    = Some (before_update_row_trigger "enforce_safe_user_profile_update")
  ∧ (∀ n t, n ≠ "trg_enforce_safe_user_profile_update" →
       users_triggers c' !! n = Some t
       ↔ users_triggers c !! n = Some t
         ∧ ¬ selected_by_do_block n t
         ∧ tgfoid t ∉ ["restrict_user_profile_update"; "enforce_safe_profile_update";
                       "check_user_profile_update"])
  ∧ functions c' !! "enforce_safe_user_profile_update"
    = Some {| Users.proowner :=
                match functions c !! "enforce_safe_user_profile_update" with
                | Some f => Users.proowner f
                | None => runner
                end;
              Users.prosecdef := true |}
  ∧ (∀ f, f ∈ ["restrict_user_profile_update"; "enforce_safe_profile_update";
               "check_user_profile_update"] → functions c' !! f = None)
  ∧ (∀ f, f ∉ ["enforce_safe_user_profile_update"; "restrict_user_profile_update";
               "enforce_safe_profile_update"; "check_user_profile_update"] →
       functions c' !! f = functions c !! f)
  ∧ orders_columns c' = orders_columns c
  ∧ orders_policies c' = orders_policies c.
Proof.
  rewrite phase18_run. cbv zeta.
  destruct (_ !! "trg_enforce_safe_user_profile_update") eqn:HT; [done|].
  intros [= <-]. simpl. split_and!; try done.
  - apply lookup_insert_eq.
  - intros n t Hn. rewrite lookup_insert_ne by done. apply spared_trigger.
  - apply lookup_insert_eq.
  - intros f Hf. rewrite lookup_insert_ne.
    + repeat (apply elem_of_cons in Hf as [-> | Hf]);
        [| | |by apply elem_of_nil in Hf].
      * rewrite !lookup_delete_ne by done. apply lookup_delete_eq.
      * rewrite lookup_delete_ne by done. apply lookup_delete_eq.
      * apply lookup_delete_eq.
    + intros <-. repeat (apply elem_of_cons in Hf as [Hf | Hf]; [done|]).
      by apply elem_of_nil in Hf.
  - intros f Hf. rewrite !not_elem_of_cons in Hf. destruct Hf as (? & ? & ? & ? & _).
    rewrite lookup_insert_ne by done. by rewrite !lookup_delete_ne.
Qed.

(** On the legacy database: the restrictive trigger and the AFTER UPDATE
    audit trigger are gone, the timestamp helper and the INSERT trigger
    are kept. *)
Lemma phase18_postcondition_witness :
  ∃ c', run (phase18 "postgres") Scenarios.legacy = Return c'
        ∧ users_triggers c' !! "trg_enforce_safe_user_profile_update"
          = Some (before_update_row_trigger "enforce_safe_user_profile_update")
        ∧ users_triggers c' !! "trg_restrict_user_profile_update" = None
        ∧ users_triggers c' !! "trg_audit_users" = None
        ∧ is_Some (users_triggers c' !! "update_users_updated_at")
        ∧ is_Some (users_triggers c' !! "auto_public_id_trigger").
Proof.
  destruct (run (phase18 "postgres") Scenarios.legacy) as [c'|] eqn:Hrun;
    [|vm_compute in Hrun; discriminate Hrun].
  destruct (phase18_postcondition "postgres" Scenarios.legacy c' Hrun)
    as (Hnew & Hkept & _).
  exists c'. split_and!.
  - reflexivity.
  - exact Hnew.
  - apply eq_None_not_Some. intros [t Ht].
    apply Hkept in Ht as (Ht & Hns & _); [|discriminate].
    vm_compute in Ht. injection Ht as <-. apply Hns.
    apply (bool_decide_unpack _). vm_compute. exact I.
  - apply eq_None_not_Some. intros [t Ht].
    apply Hkept in Ht as (Ht & Hns & _); [|discriminate].
    vm_compute in Ht. injection Ht as <-. apply Hns.
    apply (bool_decide_unpack _). vm_compute. exact I.
  - exists (before_update_row_trigger "update_updated_at_column").
    apply Hkept; [discriminate|]. split_and!.
    + by vm_compute.
    + intros (_ & _ & H). by apply H.
    + apply (bool_decide_unpack _). vm_compute. exact I.
  - exists (Scenarios.insert_trigger "generate_public_id").
    apply Hkept; [discriminate|]. split_and!.
    + by vm_compute.
    + intros (_ & H & _). vm_compute in H. discriminate H.
    + apply (bool_decide_unpack _). vm_compute. exact I.
Defined.

(** X12. Phase 18 cannot be applied to a database in which public.users
    has a trigger named [trg_enforce_safe_user_profile_update] that the
    drops of the migration leave in place, that is, a trigger that is
    internal or does not fire on UPDATE, and that does not execute one of
    the three dropped functions: the migration raises. *)
Theorem phase18_raises_when_name_survives runner c t :
  users_triggers c !! "trg_enforce_safe_user_profile_update" = Some t →
  ¬ selected_by_do_block "trg_enforce_safe_user_profile_update" t →
  tgfoid t ∉ ["restrict_user_profile_update"; "enforce_safe_profile_update";
              "check_user_profile_update"] →
  ∃ e, run (phase18 runner) c = Raise e.
Proof.
  intros Ht Hsel Hfn.
  pose proof (proj2 (spared_trigger (users_triggers c) _ t)
                (conj Ht (conj Hsel Hfn))) as HT.
  rewrite phase18_run. cbv zeta. rewrite HT.
  by exists (duplicate_object "trg_enforce_safe_user_profile_update").
Qed.

(** The name is taken by a BEFORE INSERT trigger. *)
Lemma phase18_raises_when_name_survives_witness :
  ∃ e, run (phase18 "postgres") Scenarios.name_taken = Raise e.
Proof.
  apply (phase18_raises_when_name_survives "postgres" Scenarios.name_taken
           (Scenarios.insert_trigger "generate_public_id")).
  - reflexivity.
  - intros (_ & Hbit & _). vm_compute in Hbit. discriminate Hbit.
  - intros Hin. repeat (apply elem_of_cons in Hin as [Hin|Hin]; [discriminate Hin|]).
    by apply elem_of_nil in Hin.
Defined.

(** The UPDATE bit of [tgtype] is the same with and without the BEFORE bit. *)
Lemma update_bit_ignores_before (x : Z) :
  (Z.land (Z.lxor x TRIGGER_TYPE_BEFORE) 16 = Z.land x 16)%Z.
Proof.
  unfold TRIGGER_TYPE_BEFORE.
  change (Z.lxor x 2) with (Z.lxor x (2 ^ 1))%Z. change 16%Z with (2 ^ 4)%Z.
  apply Z.bits_inj'. intros n Hn.
  rewrite !Z.land_spec, Z.lxor_spec, !Z.pow2_bits_eqb by done.
  destruct (Z.eqb_spec 4 n) as [<- | Hne].
  - simpl. by rewrite xorb_false_r.
  - by rewrite !andb_false_r.
Qed.

(** X13. The DO block of phase 18 never fails.  Of the triggers of
    public.users it leaves exactly those that are internal, or do not have
    the bit [TRIGGER_TYPE_UPDATE] in [tgtype], or are named
    [update_users_updated_at], and drops the others.  The bit
    [TRIGGER_TYPE_BEFORE] plays no part in the choice, whatever the comment
    on the test says: an AFTER UPDATE row trigger is dropped and a BEFORE
    INSERT row trigger is kept.  Nothing else in the database changes. *)
Theorem do_block_drops_update_triggers c :
  ∃ c',
    drop_selected_triggers c = Return c'
    ∧ (∀ n t, users_triggers c' !! n = Some t ↔
         users_triggers c !! n = Some t
         ∧ (tgisinternal t = true
            ∨ Z.land (tgtype t) TRIGGER_TYPE_UPDATE ≠ TRIGGER_TYPE_UPDATE
            ∨ n = "update_users_updated_at"))
    ∧ (∀ n t, selected_by_do_block n t ↔
         selected_by_do_block n
           {| tgtype := Z.lxor (tgtype t) TRIGGER_TYPE_BEFORE;
              tgisinternal := tgisinternal t;
              tgfoid := tgfoid t |})
    ∧ (∀ n fn, n ≠ "update_users_updated_at" →
         users_triggers c !! n
         = Some {| tgtype := Z.lor TRIGGER_TYPE_ROW TRIGGER_TYPE_UPDATE;
                   tgisinternal := false;
                   tgfoid := fn |} →
         users_triggers c' !! n = None)
    ∧ (∀ n fn,
         users_triggers c !! n
         = Some {| tgtype := Z.lor (Z.lor TRIGGER_TYPE_ROW TRIGGER_TYPE_BEFORE)
                                   TRIGGER_TYPE_INSERT;
                   tgisinternal := false;
                   tgfoid := fn |} →
         users_triggers c' !! n = users_triggers c !! n)
    ∧ orders_columns c' = orders_columns c
    ∧ orders_policies c' = orders_policies c
    ∧ functions c' = functions c
    ∧ migration_log c' = migration_log c.
Proof.
  eexists. split; [reflexivity|].
  cbn [with_users_triggers users_triggers orders_columns orders_policies functions
       migration_log].
  assert (∀ n t,
            filter (λ kv, ¬ selected_by_do_block kv.1 kv.2) (users_triggers c) !! n = Some t
            ↔ users_triggers c !! n = Some t
              ∧ (tgisinternal t = true
                 ∨ Z.land (tgtype t) TRIGGER_TYPE_UPDATE ≠ TRIGGER_TYPE_UPDATE
                 ∨ n = "update_users_updated_at")) as Hkept.
  { intros n t. rewrite map_lookup_filter_Some.
    unfold selected_by_do_block, TRIGGER_TYPE_UPDATE. simpl.
    split; intros [Hl Hsel]; (split; [done|]).
    - destruct (tgisinternal t); [by left|].
      destruct (decide (Z.land (tgtype t) 16 = 16)%Z) as [Hb|Hb]; [|by right; left].
      destruct (decide (n = "update_users_updated_at")) as [Hn|Hn]; [by right; right|].
      exfalso. by apply Hsel.
    - intros (Hi & Hb & Hn). destruct Hsel as [H|[H|H]]; congruence. }
  split_and!; try done.
  - intros n t. unfold selected_by_do_block. simpl.
    by rewrite update_bit_ignores_before.
  - intros n fn Hn Hl.
    destruct (filter _ (users_triggers c) !! n) as [t'|] eqn:E; [|done].
    apply Hkept in E as [E1 E2]. rewrite Hl in E1. injection E1 as <-.
    simpl in E2. destruct E2 as [H|[H|H]]; [discriminate H| |done].
    exfalso. apply H. reflexivity.
  - intros n fn Hl. rewrite Hl. apply Hkept. split; [done|].
    right. left. simpl. vm_compute. discriminate.
Qed.

(** The log after the INSERT .. ON CONFLICT DO NOTHING. *)
Lemma logged_once (name : string) (log : list string) :
  let log' := if bool_decide (name ∈ log) then log else log ++ [name] in
  name ∈ log'
  ∧ log `prefix_of` log'
  ∧ (NoDup log → NoDup log')
  ∧ (name ∈ log → log' = log).
Proof.
  simpl. case_bool_decide as Hin; split_and!; try done.
  - apply elem_of_app. right. apply list_elem_of_here.
  - by apply prefix_app_r.
  - intros Hnd. apply NoDup_app. split_and!; [done| |apply NoDup_singleton].
    intros x Hx ->%list_elem_of_singleton. done.
Qed.

(** X14. A run of phase 18 or of phase 21 leaves the name of the migration
    in public._migration_log, keeps the entries that were there in their
    order, adds no duplicate, and adds nothing at all when the name was
    there already. *)
Theorem migration_log_append_only runner script name c c' :
  (script, name) ∈ [(phase18 runner, "20260221_phase18_fix_user_profile_trigger.sql");
                    (phase21, "20260221_phase21_fix_client_order_rls.sql")] →
  run script c = Return c' →
  name ∈ migration_log c'
  ∧ migration_log c `prefix_of` migration_log c'
  ∧ (NoDup (migration_log c) → NoDup (migration_log c'))
  ∧ (name ∈ migration_log c → migration_log c' = migration_log c).
Proof.
  intros Hin Hrun.
  apply elem_of_cons in Hin as [[= -> ->] | Hin];
    [|apply list_elem_of_singleton in Hin as [= -> ->]].
  - rewrite phase18_run in Hrun. cbv zeta in Hrun.
    destruct (_ !! "trg_enforce_safe_user_profile_update"); [done|].
    injection Hrun as <-. apply logged_once.
  - rewrite phase21_run in Hrun.
    do 3 (case_bool_decide; [|done]).
    injection Hrun as <-. apply logged_once.
Qed.

(** Phase 21 on the database phase 18 left. *)
Lemma migration_log_append_only_witness :
  ∃ c18 c21,
    run (phase18 "postgres") Scenarios.legacy = Return c18
    ∧ run phase21 c18 = Return c21
    ∧ "20260221_phase21_fix_client_order_rls.sql" ∈ migration_log c21
    ∧ migration_log c18 `prefix_of` migration_log c21.
Proof.
  destruct (run (phase18 "postgres") Scenarios.legacy) as [c18|] eqn:H18;
    [|vm_compute in H18; discriminate H18].
  destruct (run phase21 c18) as [c21|] eqn:H21.
  - destruct (migration_log_append_only "postgres" phase21
                "20260221_phase21_fix_client_order_rls.sql" c18 c21)
      as (Hin & Hpre & _).
    + apply list_elem_of_further, list_elem_of_here.
    + exact H21.
    + exists c18, c21. split_and!; [reflexivity | exact H21 | exact Hin | exact Hpre].
  - exfalso. vm_compute in H18. injection H18 as <-.
    vm_compute in H21. discriminate H21.
Defined.

(** X15. Phases 18 and 21 can be applied in either order: when phase 18
    then phase 21 run, so do phase 21 then phase 18, and the two databases
    have the same columns, policies, triggers and functions, and the same
    entries in the log (in another order at most). *)
Theorem phase18_phase21_commute runner c a :
  (c18 ← run (phase18 runner) c; run phase21 c18) = Return a →
  ∃ b, (c21 ← run phase21 c; run (phase18 runner) c21) = Return b
       ∧ orders_columns b = orders_columns a
       ∧ orders_policies b = orders_policies a
       ∧ users_triggers b = users_triggers a
       ∧ functions b = functions a
       ∧ migration_log b ≡ₚ migration_log a.
Proof.
  rewrite phase18_run, (phase21_run c). cbv zeta.
  destruct (_ !! "trg_enforce_safe_user_profile_update") eqn:HT; [done|].
  cbn [mbind res_bind]. rewrite phase21_run. cbn [orders_columns].
  do 3 (case_bool_decide; [|done]).
  intros [= <-]. cbn [mbind res_bind]. rewrite phase18_run. cbv zeta.
  cbn [users_triggers functions orders_columns orders_policies migration_log].
  rewrite HT. eexists. split; [reflexivity|]. simpl. split_and!; try done.
  set (n18 := "20260221_phase18_fix_user_profile_trigger.sql").
  set (n21 := "20260221_phase21_fix_client_order_rls.sql").
  assert (n18 ≠ n21) as Hne by done.
  generalize (migration_log c) as log. intros log. clearbody n18 n21.
  repeat case_bool_decide; try done;
    repeat match goal with
           | H : _ ∈ _ ++ [_] |- _ =>
               apply elem_of_app in H as [H | H%list_elem_of_singleton]
           | H : ¬ _ ∈ _ ++ [_] |- _ =>
               rewrite elem_of_app, list_elem_of_singleton in H
           end;
    try done; try (exfalso; by eauto).
  rewrite <- !(assoc_L (++)). apply Permutation_app_head. apply Permutation_swap.
Qed.

Lemma phase18_phase21_commute_witness :
  ∃ b, (c21 ← run phase21 Scenarios.legacy; run (phase18 "postgres") c21) = Return b
       ∧ is_Some (orders_policies b !! "Clients can update own PO fields")
       ∧ is_Some (users_triggers b !! "trg_enforce_safe_user_profile_update").
Proof.
  destruct (c18 ← run (phase18 "postgres") Scenarios.legacy; run phase21 c18)
    as [a|] eqn:Ha; [|vm_compute in Ha; discriminate Ha].
  destruct (phase18_phase21_commute "postgres" Scenarios.legacy a Ha)
    as (b & Hb & _ & Hpol & Htrg & _).
  exists b. split; [exact Hb|]. rewrite Hpol, Htrg.
  vm_compute in Ha. injection Ha as <-. split; by eexists.
Defined.

(** The four clauses of the ALTER TABLE of phase 20, one by one. *)
Lemma add_column_union name type default c :
  add_column_if_not_exists name type default c
  = Return (with_orders_columns
              (orders_columns c ∪ {[name := {| coltype := type; coldefault := default |}]}) c).
Proof.
  unfold add_column_if_not_exists. f_equal.
  destruct (orders_columns c !! name) as [d|] eqn:Hd.
  - destruct c as [cols pols trgs fns log]. unfold with_orders_columns. simpl in *.
    f_equal. apply map_eq. intros n. rewrite lookup_union.
    destruct (decide (n = name)) as [->|Hn].
    + by rewrite Hd, lookup_singleton_eq.
    + rewrite lookup_singleton_ne by done. by destruct (cols !! n).
  - f_equal. by apply insert_union_singleton_r.
Qed.

(** X16. The ALTER TABLE .. ADD COLUMN IF NOT EXISTS of phase 20 never
    fails and leaves every column that was there as it was, type and
    default included; it adds those of the four columns that were not
    there, with the type and default of the migration; nothing but the
    columns of public.orders changes, and a second run changes nothing. *)
Theorem alter_table_adds_missing_columns c :
  ∃ c',
    run (take 4 phase20) c = Return c'
    ∧ orders_columns c'
      = orders_columns c
        ∪ list_to_map
            [("not_test_order_confirmed_at",
              {| coltype := "TIMESTAMPTZ"; coldefault := "NULL" |});
             ("payment_terms_confirmed_at",
              {| coltype := "TIMESTAMPTZ"; coldefault := "NULL" |});
             ("client_po_confirmation_submitted_at",
              {| coltype := "TIMESTAMPTZ"; coldefault := "NULL" |});
             ("client_po_uploaded", {| coltype := "BOOLEAN"; coldefault := "FALSE" |})]
    ∧ orders_policies c' = orders_policies c
    ∧ users_triggers c' = users_triggers c
    ∧ functions c' = functions c
    ∧ migration_log c' = migration_log c
    ∧ run (take 4 phase20) c' = Return c'.
Proof.
  assert (∀ c0, run (take 4 phase20) c0
                = Return (with_orders_columns
                            (orders_columns c0
                             ∪ list_to_map
                                 [("not_test_order_confirmed_at",
                                   {| coltype := "TIMESTAMPTZ"; coldefault := "NULL" |});
                                  ("payment_terms_confirmed_at",
                                   {| coltype := "TIMESTAMPTZ"; coldefault := "NULL" |});
                                  ("client_po_confirmation_submitted_at",
                                   {| coltype := "TIMESTAMPTZ"; coldefault := "NULL" |});
                                  ("client_po_uploaded",
                                   {| coltype := "BOOLEAN"; coldefault := "FALSE" |})]) c0))
    as Hrun.
  { intros c0. cbn [take phase20 run].
    do 4 (rewrite add_column_union; cbn [mbind res_bind]).
    destruct c0 as [cols pols trgs fns log]. unfold with_orders_columns. simpl.
    do 2 f_equal. rewrite <- !(assoc_L (∪)). by f_equal. }
  eexists. split; [apply Hrun|].
  do 5 (split; [reflexivity|]).
  rewrite Hrun. unfold with_orders_columns.
  cbn [orders_columns orders_policies users_triggers functions migration_log].
  rewrite <- (assoc_L (∪)). by do 2 f_equal.
Qed.

End MigrationResults.

(** ** DualPOFlow.tsx: the effect, the handler and the events *)

Section WorkflowEvents.

Import DualPOFlow DualPOFlowView.

Implicit Types (env : Env) (st : State) (o : Orders.row) (ev : event).

(** [Boolean(a || (b && c))] in terms of the truth of the operands. *)
Lemma restoreEffect_truthy o st :
  restoreEffect (Some o) st
  = if truthy (Orders.client_po_confirmation_submitted_at o)
       || (truthy (Orders.not_test_order_confirmed_at o)
           && truthy (Orders.payment_terms_confirmed_at o))
    then setStep pending st else st.
Proof.
  unfold restoreEffect, Boolean, js_or, js_and.
  by destruct (Orders.client_po_confirmation_submitted_at o) as [[|a1 s1]|],
       (Orders.not_test_order_confirmed_at o) as [[|a2 s2]|],
       (Orders.payment_terms_confirmed_at o) as [[|a3 s3]|].
Qed.

(** [orders.find] returns the first row with the id. *)
Lemma currentOrder_first (orders : list Orders.row) (orderId : string) o :
  currentOrder orders orderId = Some o ↔
  ∃ l1 l2, orders = l1 ++ o :: l2
           ∧ Orders.id o = orderId
           ∧ Forall (λ r, Orders.id r ≠ orderId) l1.
Proof.
  unfold currentOrder. induction orders as [|r orders IH]; simpl.
  - split; [done|]. intros (l1 & l2 & Heq & _). by destruct l1.
  - case_bool_decide as Hid.
    + split.
      * intros [= ->]. exists [], orders. by split_and!.
      * intros (l1 & l2 & Heq & Ho & Hl1). destruct l1 as [|r' l1].
        -- by injection Heq as ->.
        -- injection Heq as -> _. by apply Forall_cons in Hl1 as [Hr _].
    + rewrite IH. split.
      * intros (l1 & l2 & -> & Ho & Hl1). exists (r :: l1), l2.
        split_and!; [done|done|by constructor].
      * intros (l1 & l2 & Heq & Ho & Hl1). destruct l1 as [|r' l1].
        -- injection Heq as -> _. done.
        -- injection Heq as -> ->. apply Forall_cons in Hl1 as [_ Hl1].
           by exists l1, l2.
Qed.

(** X17. Mounting the component gives the initial state with the step
    [pending], or the initial state; it gives the former exactly when the
    first row of [orders] with the id of the component has a
    [client_po_confirmation_submitted_at] that is neither null nor the empty
    string, or has both other timestamps so.  With no row of that id the
    component mounts in its initial state. *)
Theorem load_resumes_iff (orders : list Orders.row) (orderId : string) :
  (load orders orderId = setStep pending initial ∨ load orders orderId = initial)
  ∧ (load orders orderId = setStep pending initial ↔
     ∃ l1 o l2,
       orders = l1 ++ o :: l2
       ∧ Orders.id o = orderId
       ∧ Forall (λ r, Orders.id r ≠ orderId) l1
       ∧ (truthy (Orders.client_po_confirmation_submitted_at o) = true
          ∨ (truthy (Orders.not_test_order_confirmed_at o) = true
             ∧ truthy (Orders.payment_terms_confirmed_at o) = true))).
Proof.
  unfold load. destruct (currentOrder orders orderId) as [o|] eqn:Hco.
  - rewrite restoreEffect_truthy.
    destruct (truthy (Orders.client_po_confirmation_submitted_at o)
              || (truthy (Orders.not_test_order_confirmed_at o)
                  && truthy (Orders.payment_terms_confirmed_at o))) eqn:Hc.
    + split; [by left|]. split; [intros _|done].
      apply currentOrder_first in Hco as (l1 & l2 & Heq & Hid & Hl1).
      exists l1, o, l2. split_and!; try done.
      apply orb_true_iff in Hc as [Hc|Hc%andb_true_iff]; [by left|by right].
    + split; [by right|]. split; [done|].
      intros (l1 & o' & l2 & Heq & Hid & Hl1 & Ht).
      assert (currentOrder orders orderId = Some o') as Hco'
        by (apply currentOrder_first; by exists l1, l2).
      rewrite Hco in Hco'. injection Hco' as <-.
      apply orb_false_iff in Hc as [Hc1 Hc2].
      destruct Ht as [Ht|[Ht1 Ht2]]; [congruence|].
      rewrite Ht1, Ht2 in Hc2. discriminate Hc2.
  - simpl. split; [by right|]. split; [done|].
    intros (l1 & o' & l2 & Heq & Hid & Hl1 & Ht).
    assert (currentOrder orders orderId = Some o') as Hco'
      by (apply currentOrder_first; by exists l1, l2).
    rewrite Hco in Hco'. discriminate Hco'.
Qed.

(** In step [pending] an event changes nothing; Done calls [onComplete]. *)
Lemma dispatch_pending env (orderId : string) st ev :
  step st = pending →
  dispatch env orderId st ev
  = (st, match ev with click_done => [onComplete] | _ => [] end).
Proof.
  intros Hst. destruct st as [sp sb b1 b2]. simpl in Hst. subst sp.
  destruct ev as [b|b| | | |orders]; try reflexivity.
  unfold dispatch. destruct (currentOrder orders orderId) as [o|]; [|done].
  rewrite restoreEffect_truthy. by destruct (_ || _).
Qed.

Lemma session_pending (orderId : string) st (evs : list (Env * event)) :
  step st = pending →
  session orderId st evs
  = (st, omap (λ p, match p.2 with click_done => Some onComplete | _ => None end) evs).
Proof.
  intros Hst. induction evs as [|[env ev] evs IH]; [done|].
  simpl. rewrite dispatch_pending by done. rewrite IH. by destruct ev.
Qed.

Lemma session_app (orderId : string) st (evs1 evs2 : list (Env * event)) :
  session orderId st (evs1 ++ evs2)
  = ((session orderId (session orderId st evs1).1 evs2).1,
     (session orderId st evs1).2 ++ (session orderId (session orderId st evs1).1 evs2).2).
Proof.
  revert st. induction evs1 as [|[env ev] evs1 IH]; intros st; simpl.
  - by destruct (session orderId st evs2).
  - destruct (dispatch env orderId st ev) as [st' out]. rewrite IH.
    destruct (session orderId st' evs1) as [s1 o1]. simpl.
    destruct (session orderId s1 evs2) as [s2 o2]. simpl.
    by rewrite (assoc_L (++)).
Qed.

(** X18. Step [pending] is final: whatever events follow, handled one
    after the other, the state stays as it is, the controls of the
    confirmation step are not rendered, no call is made, and the only
    output is one [onComplete] for each click on Done. *)
Theorem pending_is_final (orderId : string) st (evs : list (Env * event)) :
  step st = pending →
  (session orderId st evs).1 = st
  ∧ confirmation_panel (session orderId st evs).1 = false
  ∧ (session orderId st evs).2
    = omap (λ p, match p.2 with click_done => Some onComplete | _ => None end) evs
  ∧ (∀ c, called c ∉ (session orderId st evs).2).
Proof.
  intros Hst. rewrite session_pending by done. simpl. split_and!; try done.
  - unfold confirmation_panel. by rewrite Hst.
  - intros c (p & _ & Hp)%list_elem_of_omap. by destruct (p.2).
Qed.

(** A component that resumed in [pending]: Submit, a checkbox and Done. *)
Lemma pending_is_final_witness :
  session "order-1" (setStep pending initial)
    [(Examples.online, click_submit);
     (Examples.online, change_not_test_order true);
     (Examples.online, click_done)]
  = (setStep pending initial, [onComplete]).
Proof.
  destruct (pending_is_final "order-1" (setStep pending initial)
              [(Examples.online, click_submit);
               (Examples.online, change_not_test_order true);
               (Examples.online, click_done)]) as (Hst & _ & Hout & _);
    [reflexivity|].
  rewrite (surjective_pairing (session _ _ _)), Hst, Hout. reflexivity.
Defined.

Lemma writes_are_writes env (orderId : string) c :
  c ∈ writes env orderId → is_write c = true.
Proof.
  unfold writes. intros Hin.
  repeat (apply elem_of_cons in Hin as [-> | Hin]; [done|]).
  by apply elem_of_nil in Hin.
Qed.

(** The outcomes of the handler: a guard stops it; or a write fails, those
    before it having succeeded; or the three writes succeed. *)
Lemma submit_outcomes env (orderId : string) st :
  ((currentUser env = None
    ∨ isNotTestOrderConfirmed st = false
    ∨ isPaymentTermsConfirmed st = false)
   ∧ submit env orderId st = (Normal (), {| state := st; calls := [] |}))
  ∨ ((is_Some (currentUser env)
      ∧ isNotTestOrderConfirmed st = true
      ∧ isPaymentTermsConfirmed st = true)
     ∧ ((∃ pre c e post,
           writes env orderId = pre ++ c :: post
           ∧ Forall (λ c', failure env c' = None) pre
           ∧ failure env c = Some e
           ∧ submit env orderId st
             = (Normal (),
                {| state := setSubmitting false st;
                   calls := pre ++ [c;
                                    logger_error "Failed to submit PO confirmation:" e;
                                    toast_error (t env "client.po.confirmationSubmitError")] |}))
        ∨ (Forall (λ c, failure env c = None) (writes env orderId)
           ∧ submit env orderId st
             = (Normal (),
                {| state := setSubmitting false (setStep pending st);
                   calls := writes env orderId
                            ++ [toast_success (t env "client.po.confirmationSubmitted")] |})))).
Proof.
  unfold submit, handleSubmitForConfirmation, writes.
  destruct (currentUser env) as [u|] eqn:Hu; [|left; split; [by left|done]].
  destruct (isNotTestOrderConfirmed st) eqn:H1; [|left; split; [by right; left|done]].
  destruct (isPaymentTermsConfirmed st) eqn:H2; [|left; split; [by right; right|done]].
  right. split; [by eauto|].
  unfold mbind, M_bind, try_finally, try_catch, write, tell, set. simpl.
  destruct (failure env (submitClientPOConfirmation _ _)) as [e1|] eqn:E1; simpl.
  { left. eexists [], _, e1, _. split; [reflexivity|]. by split_and!. }
  destruct (failure env (updateOrder _ _)) as [e2|] eqn:E2; simpl.
  { left. eexists [_], _, e2, _. split; [reflexivity|].
    split_and!; [by repeat constructor|done|done]. }
  destruct (failure env (addNotification _)) as [e3|] eqn:E3; simpl.
  { left. eexists [_; _], _, e3, _. split; [reflexivity|].
    split_and!; [by repeat constructor|done|done]. }
  right. split; [by repeat constructor|done].
Qed.

(** X19. From step [confirmation], one event leads to step [pending] in
    two ways only: a click on the enabled Submit button by a signed-in user
    whose three writes all succeed, which makes the three writes and shows
    the success toast; or a change of the orders in the store after which
    the order of the component shows a stored confirmation, which makes no
    call. *)
Theorem pending_reached_only_by env (orderId : string) st ev st' out :
  dispatch env orderId st ev = (st', out) →
  step st = confirmation →
  step st' = pending →
  (ev = click_submit
   ∧ is_Some (currentUser env)
   ∧ submit_disabled st = false
   ∧ Forall (λ c, failure env c = None) (writes env orderId)
   ∧ out = called <$> (writes env orderId
                       ++ [toast_success (t env "client.po.confirmationSubmitted")])
   ∧ st' = setStep pending st)
  ∨ (∃ orders o,
       ev = orders_changed orders
       ∧ currentOrder orders orderId = Some o
       ∧ (truthy (Orders.client_po_confirmation_submitted_at o) = true
          ∨ (truthy (Orders.not_test_order_confirmed_at o) = true
             ∧ truthy (Orders.payment_terms_confirmed_at o) = true))
       ∧ out = []
       ∧ st' = setStep pending st).
Proof.
  intros Hd Hst Hst'. destruct ev as [b|b| | | |orders]; simpl in Hd.
  - destruct (confirmation_panel st); injection Hd as <- <-; simpl in Hst'; congruence.
  - destruct (confirmation_panel st); injection Hd as <- <-; simpl in Hst'; congruence.
  - destruct (confirmation_panel st && negb (submit_disabled st)) eqn:Hen;
      [|injection Hd as <- <-; congruence].
    apply andb_true_iff in Hen as [_ Hen%negb_true_iff].
    left. pose proof Hen as Hdis. unfold submit_disabled in Hen.
    apply orb_false_iff in Hen as [[Hsub Hb1%negb_false_iff]%orb_false_iff
                                     Hb2%negb_false_iff].
    destruct (submit_outcomes env orderId st)
      as [[Hg Hs] | [(Hu & _ & _) [(pre & c & e & post & _ & _ & _ & Hs) | [Hok Hs]]]];
      rewrite Hs in Hd; simpl in Hd; injection Hd as <- <-.
    + congruence.
    + simpl in Hst'. congruence.
    + split_and!; try done. destruct st as [sp sb b1 b2]. simpl in *. by subst.
  - destruct (confirmation_panel st); injection Hd as <- <-; congruence.
  - destruct (pending_panel st); injection Hd as <- <-; congruence.
  - right. destruct (currentOrder orders orderId) as [o|] eqn:Hco;
      [|injection Hd as <- <-; simpl in Hst'; congruence].
    rewrite restoreEffect_truthy in Hd.
    destruct (truthy (Orders.client_po_confirmation_submitted_at o)
              || (truthy (Orders.not_test_order_confirmed_at o)
                  && truthy (Orders.payment_terms_confirmed_at o))) eqn:Hc;
      injection Hd as <- <-; [|congruence].
    exists orders, o. split_and!; try done.
    apply orb_true_iff in Hc as [Hc|Hc%andb_true_iff]; [by left|by right].
Qed.

(** [client-1] submits with both boxes ticked and the store reachable. *)
Lemma pending_reached_only_by_witness :
  Forall (λ c, failure Examples.online c = None) (writes Examples.online "order-1")
  ∧ (dispatch Examples.online "order-1" Examples.ticked click_submit).1
    = setStep pending Examples.ticked.
Proof.
  destruct (dispatch Examples.online "order-1" Examples.ticked click_submit)
    as [st' out] eqn:Hd.
  destruct (pending_reached_only_by Examples.online "order-1" Examples.ticked
              click_submit st' out Hd)
    as [(_ & _ & _ & Hok & _ & Hst') | (orders & o & Hev & _)].
  - reflexivity.
  - vm_compute in Hd. by injection Hd as <- _.
  - by split.
  - discriminate Hev.
Defined.

(** X20. The handler never throws.  It makes no call exactly when no user
    is signed in or a box is not ticked, and then it leaves the state as it
    is; otherwise it ends with [submitting] off.  It never changes a box,
    and it ends in step [pending] exactly when it started there or it made
    its writes and all three succeeded. *)
Theorem submit_always_completes env (orderId : string) st :
  ∃ w,
    submit env orderId st = (Normal (), w)
    ∧ isNotTestOrderConfirmed (state w) = isNotTestOrderConfirmed st
    ∧ isPaymentTermsConfirmed (state w) = isPaymentTermsConfirmed st
    ∧ (calls w = [] ↔
       currentUser env = None
       ∨ isNotTestOrderConfirmed st = false
       ∨ isPaymentTermsConfirmed st = false)
    ∧ (calls w = [] → state w = st)
    ∧ (calls w ≠ [] → submitting (state w) = false)
    ∧ (step (state w) = pending ↔
       step st = pending
       ∨ (calls w ≠ [] ∧ Forall (λ c, failure env c = None) (writes env orderId))).
Proof.
  assert (∀ u : string, ¬ (is_Some (Some u) ∧ true = true ∧ true = true
                           ∧ (Some u = None ∨ true = false ∨ true = false)))
    as Hguard by (intros u (_ & _ & _ & [H|[H|H]]); discriminate H).
  destruct (submit_outcomes env orderId st)
    as [[Hg Hs] | [(Hu & Hb1 & Hb2) [(pre & c & e & post & Hw & Hpre & Hc & Hs)
                                     | [Hok Hs]]]];
    rewrite Hs; eexists; (split; [reflexivity|]); simpl.
  - split_and!; try done. split; [by left|]. by intros [H|[H _]].
  - split_and!; try done.
    + split; [by destruct pre|]. destruct Hu as [u Hu].
      rewrite Hu, Hb1, Hb2. intros H. exfalso. by apply (Hguard u).
    + by destruct pre.
    + split; [by left|]. intros [H|[_ H]]; [done|].
      rewrite Hw in H. apply Forall_app in H as [_ H].
      apply Forall_cons in H as [H _]. congruence.
  - split_and!; try done.
    + destruct Hu as [u Hu]. rewrite Hu, Hb1, Hb2. split; [done|].
      intros H. exfalso. by apply (Hguard u).
    + split; [|done]. intros _. right. by split.
Qed.

(** X21. The writes are made in the order [submitClientPOConfirmation],
    [updateOrder], [addNotification], each once at most, and each only
    after those before it have succeeded.  The first failure stops them:
    it is logged with its error, followed by the error toast.  The success
    toast is shown after three successful writes only. *)
Theorem writes_stop_at_first_failure env (orderId : string) st :
  calls (submit env orderId st).2 = []
  ∨ (∃ pre c e post,
       writes env orderId = pre ++ c :: post
       ∧ Forall (λ c', failure env c' = None) pre
       ∧ failure env c = Some e
       ∧ calls (submit env orderId st).2
         = pre ++ [c;
                   logger_error "Failed to submit PO confirmation:" e;
                   toast_error (t env "client.po.confirmationSubmitError")])
  ∨ (Forall (λ c, failure env c = None) (writes env orderId)
     ∧ calls (submit env orderId st).2
       = writes env orderId ++ [toast_success (t env "client.po.confirmationSubmitted")]).
Proof.
  destruct (submit_outcomes env orderId st)
    as [[_ Hs] | [_ [(pre & c & e & post & Hw & Hpre & Hc & Hs) | [Hok Hs]]]];
    rewrite Hs; simpl.
  - by left.
  - right. left. by exists pre, c, e, post.
  - right. by right.
Qed.

(** X22. While no user is signed in, the component makes no call at all,
    whatever the events: its only outputs are the callbacks [onCancel] and
    [onComplete]. *)
Theorem signed_out_session_makes_no_call (orderId : string) st
    (evs : list (Env * event)) :
  Forall (λ p, currentUser p.1 = None) evs →
  Forall (λ out, out = onCancel ∨ out = onComplete) (session orderId st evs).2.
Proof.
  revert st. induction evs as [|[env ev] evs IH]; intros st Hevs; [by constructor|].
  apply Forall_cons in Hevs as [Henv Hevs]. simpl in Henv. simpl.
  destruct (dispatch env orderId st ev) as [st' out] eqn:Hd.
  specialize (IH st' Hevs). destruct (session orderId st' evs) as [st'' out'].
  simpl in *. apply Forall_app. split; [|done].
  destruct ev as [b|b| | | |orders]; simpl in Hd.
  - destruct (confirmation_panel st); injection Hd as <- <-; constructor.
  - destruct (confirmation_panel st); injection Hd as <- <-; constructor.
  - destruct (confirmation_panel st && negb (submit_disabled st));
      [|injection Hd as <- <-; constructor].
    unfold submit, handleSubmitForConfirmation in Hd. rewrite Henv in Hd.
    simpl in Hd. injection Hd as <- <-. constructor.
  - destruct (confirmation_panel st); injection Hd as <- <-;
      [apply Forall_singleton; by left|constructor].
  - destruct (pending_panel st); injection Hd as <- <-;
      [apply Forall_singleton; by right|constructor].
  - injection Hd as <- <-. constructor.
Qed.

(** Signed out, the user ticks both boxes, clicks Submit, then Cancel. *)
Lemma signed_out_session_makes_no_call_witness :
  Forall (λ out, out = onCancel ∨ out = onComplete)
    (session "order-1" initial
       [(Scenarios.signed_out, change_not_test_order true);
        (Scenarios.signed_out, change_payment_terms true);
        (Scenarios.signed_out, click_submit);
        (Scenarios.signed_out, click_cancel)]).2.
Proof.
  apply (signed_out_session_makes_no_call "order-1" initial).
  repeat constructor.
Defined.

Lemma dispatch_success_pending env (orderId : string) st ev (msg : string) :
  called (toast_success msg) ∈ (dispatch env orderId st ev).2 →
  step (dispatch env orderId st ev).1 = pending.
Proof.
  assert (∀ l, Forall (λ c, is_write c = true) l → toast_success msg ∉ l) as Hnot.
  { intros l Hl Hin. rewrite Forall_forall in Hl. by apply Hl in Hin. }
  destruct ev as [b|b| | | |orders]; simpl.
  - destruct (confirmation_panel st); simpl; by intros ?%elem_of_nil.
  - destruct (confirmation_panel st); simpl; by intros ?%elem_of_nil.
  - destruct (confirmation_panel st && negb (submit_disabled st));
      [|simpl; by intros ?%elem_of_nil].
    destruct (submit_outcomes env orderId st)
      as [[_ Hs] | [_ [(pre & c & e & post & Hw & _ & _ & Hs) | [_ Hs]]]];
      rewrite Hs; simpl; [by intros ?%elem_of_nil| |done].
    intros (c' & [= <-] & Hin)%list_elem_of_fmap. exfalso.
    apply elem_of_app in Hin as [Hin|Hin].
    + assert (is_write (toast_success msg) = true) as Hw'; [|done].
      apply (writes_are_writes env orderId). rewrite Hw.
      apply elem_of_app. by left.
    + apply elem_of_cons in Hin as [<- | Hin].
      * assert (is_write (toast_success msg) = true) as Hw'; [|done].
        apply (writes_are_writes env orderId). rewrite Hw.
        apply elem_of_app. right. apply list_elem_of_here.
      * repeat (apply elem_of_cons in Hin as [Hin|Hin]; [done|]).
        by apply elem_of_nil in Hin.
  - destruct (confirmation_panel st); simpl; intros Hin.
    + by apply list_elem_of_singleton in Hin.
    + by apply elem_of_nil in Hin.
  - destruct (pending_panel st); simpl; intros Hin.
    + by apply list_elem_of_singleton in Hin.
    + by apply elem_of_nil in Hin.
  - by intros ?%elem_of_nil.
Qed.

Lemma session_success_pending (orderId : string) st (evs : list (Env * event))
    (msg : string) :
  called (toast_success msg) ∈ (session orderId st evs).2 →
  step (session orderId st evs).1 = pending.
Proof.
  revert st. induction evs as [|[env ev] evs IH]; intros st; simpl.
  { by intros ?%elem_of_nil. }
  pose proof (dispatch_success_pending env orderId st ev msg) as Hd.
  destruct (dispatch env orderId st ev) as [st' out]. simpl in Hd.
  specialize (IH st').
  destruct (session orderId st' evs) as [st'' out'] eqn:Hs. simpl in *.
  intros [Hin|Hin]%elem_of_app; [|by apply IH].
  rewrite session_pending in Hs by by apply Hd.
  injection Hs as <- _. by apply Hd.
Qed.

(** X23. Once the success toast has been shown in a session, the
    component is in step [pending], and whatever events follow, the state
    does not change and nothing more is called: a confirmation is submitted
    with success once at most in the life of the component. *)
Theorem nothing_after_success (orderId : string) st (evs1 evs2 : list (Env * event))
    (msg : string) :
  called (toast_success msg) ∈ (session orderId st evs1).2 →
  step (session orderId st evs1).1 = pending
  ∧ (session orderId st (evs1 ++ evs2)).1 = (session orderId st evs1).1
  ∧ (session orderId st (evs1 ++ evs2)).2
    = (session orderId st evs1).2
      ++ omap (λ p, match p.2 with click_done => Some onComplete | _ => None end) evs2.
Proof.
  intros Hin. apply session_success_pending in Hin.
  rewrite session_app, (session_pending orderId (session orderId st evs1).1 evs2) by done.
  by split_and!.
Qed.

(** [client-1] ticks both boxes and submits; then clicks Submit again and
    Done. *)
Lemma nothing_after_success_witness :
  (session "order-1" initial
     ([(Examples.online, change_not_test_order true);
       (Examples.online, change_payment_terms true);
       (Examples.online, click_submit)]
      ++ [(Examples.online, click_submit); (Examples.online, click_done)])).2
  = (session "order-1" initial
       [(Examples.online, change_not_test_order true);
        (Examples.online, change_payment_terms true);
        (Examples.online, click_submit)]).2 ++ [onComplete].
Proof.
  destruct (nothing_after_success "order-1" initial
              [(Examples.online, change_not_test_order true);
               (Examples.online, change_payment_terms true);
               (Examples.online, click_submit)]
              [(Examples.online, click_submit); (Examples.online, click_done)]
              "client.po.confirmationSubmitted") as (_ & _ & Hout).
  - vm_compute. do 3 apply list_elem_of_further. apply list_elem_of_here.
  - exact Hout.
Defined.

End WorkflowEvents.
